(** * A validating admission webhook for Pods: model of [cmd/root.go]

    The handler [validatePod] receives an AdmissionReview over HTTP, checks
    that it is about a Pod, decodes the Pod, and answers with an
    AdmissionReview that allows or rejects the Pod from its [hello] label.

    The model follows the Go source statement by statement.  The handler's
    effects (writes to the [http.ResponseWriter], log lines, calls of the
    deserializer and of [json.Marshal]) are threaded through a state monad
    whose computations may also stop with a run-time panic, as a Go nil
    pointer dereference does. *)

From Stdlib Require Import ZArith Ascii String List DecimalString.
From stdpp Require Import base decidable option list strings gmap.

Local Open Scope string_scope.
Local Open Scope Z_scope.

(** Go's [error] values are used by the handler only through [%v], that is
    through their message. *)
Definition error := string.

(** A Go result pair [(v, err)] of which exactly one side is meaningful. *)
Inductive result (A : Type) : Type :=
| Ok (v : A)
| Err (err : error).
Arguments Ok {A} v.
Arguments Err {A} err.

(** [[]byte(s)] *)
Definition bytes_of (s : string) : list Byte.byte := list_byte_of_string s.

(** ** Go's [strings], as far as [schema.ParseGroupVersion] uses it *)

Module strings.

(** [strings.Count(s, string(c))] for a one-byte separator. *)
Fixpoint Count (s : string) (c : ascii) : nat :=
  match s with
  | EmptyString => 0%nat
  | String a s' => ((if Ascii.eqb a c then 1 else 0) + Count s' c)%nat
  end.

(** [strings.Index(s, string(c))]; Go's [-1] is [None]. *)
Fixpoint Index (s : string) (c : ascii) : option nat :=
  match s with
  | EmptyString => None
  | String a s' =>
      if Ascii.eqb a c then Some 0%nat
      else match Index s' c with
           | Some i => Some (S i)
           | None => None
           end
  end.

(** The slice [s[lo:hi]], for [lo <= hi <= len(s)]. *)
Definition slice (s : string) (lo hi : nat) : string :=
  String.substring lo (hi - lo) s.

End strings.

(** ** [k8s.io/apimachinery]: [runtime/schema] and [apis/meta/v1]

    [validatePod] copies the envelope's type through
    [TypeMeta.GroupVersionKind] and [TypeMeta.SetGroupVersionKind]; these
    and the functions they call are embedded here from the library that
    [cmd/root.go] imports. *)

Module schema.

Record GroupVersion := mkGroupVersion {
  gv_Group : string;
  gv_Version : string
}.

Record GroupVersionKind := mkGroupVersionKind {
  Group : string;
  Version : string;
  Kind : string
}.

Definition slash : ascii := "/"%char.

(** [ParseGroupVersion]: the empty string and ["/"] are the internal
    version; no slash is a bare version; one slash separates group and
    version; anything else is an error. *)
Definition ParseGroupVersion (gv : string) : result GroupVersion :=
  if bool_decide (String.length gv = 0%nat) || bool_decide (gv = "/") then
    Ok (mkGroupVersion "" "")
  else
    match strings.Count gv slash with
    | 0%nat => Ok (mkGroupVersion "" gv)
    | 1%nat =>
        match strings.Index gv slash with
        | Some i =>
            Ok (mkGroupVersion (strings.slice gv 0 i)
                               (strings.slice gv (i + 1) (String.length gv)))
        | None => Err ("unexpected GroupVersion string: " +:+ gv)
        end
    | _ => Err ("unexpected GroupVersion string: " +:+ gv)
    end.

(** [GroupVersion.String] *)
Definition GroupVersion_String (gv : GroupVersion) : string :=
  if bool_decide (0 < String.length (gv_Group gv))%nat then
    gv_Group gv +:+ "/" +:+ gv_Version gv
  else gv_Version gv.

(** [FromAPIVersionAndKind] *)
Definition FromAPIVersionAndKind (apiVersion kind : string) : GroupVersionKind :=
  match ParseGroupVersion apiVersion with
  | Ok gv => mkGroupVersionKind (gv_Group gv) (gv_Version gv) kind
  | Err _ => mkGroupVersionKind "" "" kind
  end.

(** [GroupVersionKind.Empty] *)
Definition Empty (gvk : GroupVersionKind) : bool :=
  bool_decide (String.length (Group gvk) = 0%nat)
  && bool_decide (String.length (Version gvk) = 0%nat)
  && bool_decide (String.length (Kind gvk) = 0%nat).

(** [GroupVersionKind.ToAPIVersionAndKind] *)
Definition ToAPIVersionAndKind (gvk : GroupVersionKind) : string * string :=
  if Empty gvk then ("", "")
  else (GroupVersion_String (mkGroupVersion (Group gvk) (Version gvk)), Kind gvk).

End schema.

Module metav1.

Record GroupVersionResource := mkGroupVersionResource {
  Group : string;
  Version : string;
  Resource : string
}.

#[global] Instance GroupVersionResource_eq_dec : EqDecision GroupVersionResource.
Proof. solve_decision. Defined.

Record TypeMeta := mkTypeMeta {
  Kind : string;
  APIVersion : string
}.

(** [TypeMeta.GroupVersionKind] *)
Definition GroupVersionKind (obj : TypeMeta) : schema.GroupVersionKind :=
  schema.FromAPIVersionAndKind (APIVersion obj) (Kind obj).

(** [TypeMeta.SetGroupVersionKind] *)
Definition SetGroupVersionKind (gvk : schema.GroupVersionKind) : TypeMeta :=
  let '(apiVersion, kind) := schema.ToAPIVersionAndKind gvk in
  mkTypeMeta kind apiVersion.

(** Only the message of a [Status] is set by the handler. *)
Record Status := mkStatus {
  Message : string
}.

End metav1.

Module runtime.

Record RawExtension := mkRawExtension {
  Raw : list Byte.byte
}.

End runtime.

(** ** [k8s.io/api/core/v1]: a Pod, of which the handler reads the labels.
    A Go map that is [nil] answers lookups as an empty one does. *)
Module corev1.

Record Pod := mkPod {
  Labels : gmap string string
}.

End corev1.

(** ** [k8s.io/api/admission/v1] *)
Module admissionv1.

Record AdmissionRequest := mkAdmissionRequest {
  UID : string;
  Resource : metav1.GroupVersionResource;
  Object : runtime.RawExtension
}.

Record AdmissionResponse := mkAdmissionResponse {
  resp_UID : string;
  Allowed : bool;
  Result : option metav1.Status;
  Warnings : list string
}.

(** [Request] and [Response] are pointers: [None] is [nil]. *)
Record AdmissionReview := mkAdmissionReview {
  TypeMeta : metav1.TypeMeta;
  Request : option AdmissionRequest;
  Response : option AdmissionResponse
}.

(** The zero values [&AdmissionResponse{}] and [AdmissionReview{}]. *)
Definition zeroAdmissionResponse : AdmissionResponse :=
  mkAdmissionResponse "" false None [].

Definition zeroAdmissionReview : AdmissionReview :=
  mkAdmissionReview (metav1.mkTypeMeta "" "") None None.

Definition set_Allowed (b : bool) (a : AdmissionResponse) : AdmissionResponse :=
  mkAdmissionResponse (resp_UID a) b (Result a) (Warnings a).

Definition set_Result (s : option metav1.Status) (a : AdmissionResponse) : AdmissionResponse :=
  mkAdmissionResponse (resp_UID a) (Allowed a) s (Warnings a).

Definition set_Warnings (ws : list string) (a : AdmissionResponse) : AdmissionResponse :=
  mkAdmissionResponse (resp_UID a) (Allowed a) (Result a) ws.

Definition set_UID (uid : string) (a : AdmissionResponse) : AdmissionResponse :=
  mkAdmissionResponse uid (Allowed a) (Result a) (Warnings a).

Definition set_Response (p : option AdmissionResponse) (r : AdmissionReview) : AdmissionReview :=
  mkAdmissionReview (TypeMeta r) (Request r) p.

Definition set_TypeMeta (t : metav1.TypeMeta) (r : AdmissionReview) : AdmissionReview :=
  mkAdmissionReview t (Request r) (Response r).

End admissionv1.

(** ** The policy: lines 123-133 of [validatePod]

    [admissionResponse] starts as the zero value with [Allowed] set, and is
    then updated from the two-valued map lookup [pod.Labels["hello"]]. *)
Definition podAdmissionResponse (pod : corev1.Pod) : admissionv1.AdmissionResponse :=
  let admissionResponse :=
    admissionv1.set_Allowed true admissionv1.zeroAdmissionResponse in
  match corev1.Labels pod !! "hello" with
  | None =>
      admissionv1.set_Result
        (Some (metav1.mkStatus "missing required hello label"))
        (admissionv1.set_Allowed false admissionResponse)
  | Some value =>
      if bool_decide (value = "world") then
        admissionv1.set_Warnings
          ["world will be deprecated for hello in the future"]
          admissionResponse
      else admissionResponse
  end.


(** ** [net/http]: what the handler sees of a request and of the writer *)
Module http.

Definition Header := gmap string (list string).

(** [Header.Get]: the first value stored under the key, or the empty
    string.  The key ["Content-Type"] is already in canonical form. *)
Definition Header_Get (h : gmap string (list string)) (key : string) : string :=
  match h !! key with
  | Some (v :: _) => v
  | _ => ""
  end.

(** [Header.Set] *)
Definition Header_Set (key value : string) (h : gmap string (list string))
  : gmap string (list string) :=
  <[key := [value]]> h.

(** A request: its header and its body.  [Body] is [None] for a nil
    body; otherwise it holds what [ioutil.ReadAll] yields on it. *)
Record Request := mkRequest {
  Header_of : gmap string (list string);
  Body : option (result (list Byte.byte))
}.

(** The observable state of a [ResponseWriter]: the header map, the status
    code once it has been written, and the body bytes written so far. *)
Record ResponseWriter := mkResponseWriter {
  rw_Header : gmap string (list string);
  rw_Status : option Z;
  rw_Body : list Byte.byte
}.

Definition newResponseWriter : ResponseWriter :=
  mkResponseWriter ∅ None [].

(** [WriteHeader]: the first call fixes the status code. *)
Definition WriteHeader (statusCode : Z) (w : ResponseWriter) : ResponseWriter :=
  match rw_Status w with
  | None => mkResponseWriter (rw_Header w) (Some statusCode) (rw_Body w)
  | Some _ => w
  end.

(** [Write]: writes the header with status 200 if none was written yet,
    then appends the data. *)
Definition Write (data : list Byte.byte) (w : ResponseWriter) : ResponseWriter :=
  let w' := WriteHeader 200 w in
  mkResponseWriter (rw_Header w') (rw_Status w') (rw_Body w' ++ data).

Definition SetHeader (key value : string) (w : ResponseWriter) : ResponseWriter :=
  mkResponseWriter (Header_Set key value (rw_Header w)) (rw_Status w) (rw_Body w).

End http.

(** ** Effects of the handler *)

(** What the handler does to the outside, in order. *)
Inductive Event : Type :=
| EvLogPrintf (format : string)
| EvReadAll
| EvDecodeAdmissionReview (data : list Byte.byte)
| EvDecodePod (data : list Byte.byte)
| EvJsonMarshal (v : admissionv1.AdmissionReview).

Record World := mkWorld {
  writer : http.ResponseWriter;
  trace : list Event
}.

Definition initWorld : World := mkWorld http.newResponseWriter [].

(** A computation either returns a value or panics; both leave a world. *)
Inductive Outcome (A : Type) : Type :=
| Returned (v : A) (σ : World)
| Panicked (msg : string) (σ : World).
Arguments Returned {A} v σ.
Arguments Panicked {A} msg σ.

Definition M (A : Type) : Type := World -> Outcome A.

#[global] Instance M_ret : MRet M := fun A v σ => Returned v σ.

#[global] Instance M_bind : MBind M := fun A B k m σ =>
  match m σ with
  | Returned v σ' => k v σ'
  | Panicked msg σ' => Panicked msg σ'
  end.

Definition panic {A} (msg : string) : M A := fun σ => Panicked msg σ.

Definition emit (e : Event) : M unit :=
  fun σ => Returned tt (mkWorld (writer σ) (trace σ ++ [e])).

Definition onWriter (f : http.ResponseWriter -> http.ResponseWriter) : M unit :=
  fun σ => Returned tt (mkWorld (f (writer σ)) (trace σ)).

(** [logger.Printf(format)] *)
Definition logger_Printf (format : string) : M unit := emit (EvLogPrintf format).

(** [w.WriteHeader(code)], [w.Write(data)] and [w.Header().Set(k, v)] *)
Definition w_WriteHeader (statusCode : Z) : M unit := onWriter (http.WriteHeader statusCode).
Definition w_Write (data : list Byte.byte) : M unit := onWriter (http.Write data).
Definition w_Header_Set (key value : string) : M unit := onWriter (http.SetHeader key value).

(** [ioutil.ReadAll(r.Body)] *)
Definition ioutil_ReadAll (body : result (list Byte.byte)) : M (result (list Byte.byte)) :=
  emit EvReadAll ;; mret body.

(** Reading a field through a pointer: a nil pointer panics. *)
Definition deref {A} (p : option A) : M A :=
  match p with
  | Some v => mret v
  | None => panic "runtime error: invalid memory address or nil pointer dereference"
  end.

(** The [runtime.Decoder] the handler is given, at the two types it is used
    at, and [json.Marshal] at [AdmissionReview]. *)
Record Decoder := mkDecoder {
  decodeAdmissionReview : list Byte.byte -> result admissionv1.AdmissionReview;
  decodePod : list Byte.byte -> result corev1.Pod
}.

Definition Decode_AdmissionReview (d : Decoder) (data : list Byte.byte)
  : M (result admissionv1.AdmissionReview) :=
  emit (EvDecodeAdmissionReview data) ;; mret (decodeAdmissionReview d data).

Definition Decode_Pod (d : Decoder) (data : list Byte.byte) : M (result corev1.Pod) :=
  emit (EvDecodePod data) ;; mret (decodePod d data).

(** ** The handler *)

Section Handler.

(** [codecs.UniversalDeserializer()] and [json.Marshal]. *)
Variable codecs_UniversalDeserializer : Decoder.
Variable json_Marshal : admissionv1.AdmissionReview -> result (list Byte.byte).

Definition json_MarshalM (v : admissionv1.AdmissionReview) : M (result (list Byte.byte)) :=
  emit (EvJsonMarshal v) ;; mret (json_Marshal v).

Definition admissionReviewFromRequest (r : http.Request) (deserializer : Decoder)
  : M (result admissionv1.AdmissionReview) :=
  if bool_decide (http.Header_Get (http.Header_of r) "Content-Type" ≠ "application/json")
  then mret (Err "expected application/json content-type")
  else
    read ← match http.Body r with
            | Some rc => ioutil_ReadAll rc
            | None => mret (Ok [])
            end;
    match read with
    | Err err => mret (Err err)
    | Ok body => Decode_AdmissionReview deserializer body
    end.

Definition podResource : metav1.GroupVersionResource :=
  metav1.mkGroupVersionResource "" "v1" "pods".

(** Writes an error answer: log, status code, message. *)
Definition fail (statusCode : Z) (msg : string) : M unit :=
  logger_Printf msg ;;
  w_WriteHeader statusCode ;;
  w_Write (bytes_of msg).

Definition validatePod (r : http.Request) : M unit :=
  logger_Printf "received message on validate" ;;
  let deserializer := codecs_UniversalDeserializer in
  got ← admissionReviewFromRequest r deserializer;
  match got with
  | Err err =>
      fail 400 ("error getting admission review from request: " +:+ err)
  | Ok admissionReviewRequest =>
      request ← deref (admissionv1.Request admissionReviewRequest);
      if bool_decide (admissionv1.Resource request ≠ podResource) then
        request ← deref (admissionv1.Request admissionReviewRequest);
        fail 400 ("did not receive pod, got "
                  +:+ metav1.Resource (admissionv1.Resource request))
      else
        request ← deref (admissionv1.Request admissionReviewRequest);
        let rawRequest := runtime.Raw (admissionv1.Object request) in
        decoded ← Decode_Pod deserializer rawRequest;
        match decoded with
        | Err err => fail 500 ("error decoding raw pod: " +:+ err)
        | Ok pod =>
            let admissionResponse := podAdmissionResponse pod in
            let admissionReviewResponse :=
              admissionv1.set_Response (Some admissionResponse)
                admissionv1.zeroAdmissionReview in
            let admissionReviewResponse :=
              admissionv1.set_TypeMeta
                (metav1.SetGroupVersionKind
                   (metav1.GroupVersionKind
                      (admissionv1.TypeMeta admissionReviewRequest)))
                admissionReviewResponse in
            request ← deref (admissionv1.Request admissionReviewRequest);
            response ← deref (admissionv1.Response admissionReviewResponse);
            let admissionReviewResponse :=
              admissionv1.set_Response
                (Some (admissionv1.set_UID (admissionv1.UID request) response))
                admissionReviewResponse in
            marshalled ← json_MarshalM admissionReviewResponse;
            match marshalled with
            | Err err => fail 500 ("error marshalling response json: " +:+ err)
            | Ok resp =>
                w_Header_Set "Content-Type" "application/json" ;;
                w_Write resp
            end
        end
  end.

End Handler.

(** ** Reading off a run *)

(** What reading the request body yields; a nil body reads as no bytes. *)
Definition requestBody (r : http.Request) : result (list Byte.byte) :=
  match http.Body r with
  | Some rc => rc
  | None => Ok []
  end.

Definition worldOf {A} (o : Outcome A) : World :=
  match o with
  | Returned _ σ => σ
  | Panicked _ σ => σ
  end.

Definition panicked {A} (o : Outcome A) : bool :=
  match o with
  | Returned _ _ => false
  | Panicked _ _ => true
  end.

(** The HTTP status and body a client gets after a run. *)
Definition statusOf {A} (o : Outcome A) : option Z := http.rw_Status (writer (worldOf o)).
Definition bodyOf {A} (o : Outcome A) : list Byte.byte := http.rw_Body (writer (worldOf o)).

Definition isDecodeAdmissionReview (e : Event) : bool :=
  match e with EvDecodeAdmissionReview _ => true | _ => false end.

Definition isDecodePod (e : Event) : bool :=
  match e with EvDecodePod _ => true | _ => false end.

Definition isDecode (e : Event) : bool :=
  isDecodeAdmissionReview e || isDecodePod e.

(** Whether decoding a Pod succeeded. *)
Definition is_Ok_pod (d : result corev1.Pod) : bool :=
  match d with Ok _ => true | Err _ => false end.

(** The status message of a response, when it has one. *)
Definition messageOf (a : admissionv1.AdmissionResponse) : option string :=
  metav1.Message <$> admissionv1.Result a.

(** The AdmissionReview that lines 136-139 build for a request and a Pod. *)
Definition admissionReviewResponseFor
    (admissionReviewRequest : admissionv1.AdmissionReview)
    (request : admissionv1.AdmissionRequest) (pod : corev1.Pod)
  : admissionv1.AdmissionReview :=
  admissionv1.mkAdmissionReview
    (metav1.SetGroupVersionKind
       (metav1.GroupVersionKind (admissionv1.TypeMeta admissionReviewRequest)))
    None
    (Some (admissionv1.set_UID (admissionv1.UID request) (podAdmissionResponse pod))).

(** The events of reading the body: none for a nil body. *)
Definition readEvents (r : http.Request) : list Event :=
  match http.Body r with
  | Some _ => [EvReadAll]
  | None => []
  end.

(** The writer after an error answer. *)
Definition failed (statusCode : Z) (msg : string) : http.ResponseWriter :=
  http.Write (bytes_of msg) (http.WriteHeader statusCode http.newResponseWriter).

(** The log line on entry, and what has happened once the envelope has
    been decoded. *)
Definition entry : list Event := [EvLogPrintf "received message on validate"].

Definition decodedEnvelope (r : http.Request) (data : list Byte.byte) : list Event :=
  entry ++ readEvents r ++ [EvDecodeAdmissionReview data].

(** ** The paths through [validatePod]

    Each constructor is one way through the handler: the conditions under
    which it is taken, and the outcome it ends in. *)
Inductive Path (codecs : Decoder)
    (marshal : admissionv1.AdmissionReview -> result (list Byte.byte))
    (r : http.Request) : Outcome unit -> Prop :=
| path_content_type :
    http.Header_Get (http.Header_of r) "Content-Type" <> "application/json" ->
    let msg := "error getting admission review from request: "
               +:+ "expected application/json content-type" in
    Path codecs marshal r
      (Returned tt (mkWorld (failed 400 msg) (entry ++ [EvLogPrintf msg])))
| path_read_error (err : error) :
    http.Header_Get (http.Header_of r) "Content-Type" = "application/json" ->
    http.Body r = Some (Err err) ->
    let msg := "error getting admission review from request: " +:+ err in
    Path codecs marshal r
      (Returned tt (mkWorld (failed 400 msg) (entry ++ [EvReadAll] ++ [EvLogPrintf msg])))
| path_envelope_error (data : list Byte.byte) (err : error) :
    http.Header_Get (http.Header_of r) "Content-Type" = "application/json" ->
    requestBody r = Ok data ->
    decodeAdmissionReview codecs data = Err err ->
    let msg := "error getting admission review from request: " +:+ err in
    Path codecs marshal r
      (Returned tt (mkWorld (failed 400 msg) (decodedEnvelope r data ++ [EvLogPrintf msg])))
| path_nil_request (data : list Byte.byte) (review : admissionv1.AdmissionReview) :
    http.Header_Get (http.Header_of r) "Content-Type" = "application/json" ->
    requestBody r = Ok data ->
    decodeAdmissionReview codecs data = Ok review ->
    admissionv1.Request review = None ->
    Path codecs marshal r
      (Panicked "runtime error: invalid memory address or nil pointer dereference"
         (mkWorld http.newResponseWriter (decodedEnvelope r data)))
| path_not_pod (data : list Byte.byte) (review : admissionv1.AdmissionReview)
    (request : admissionv1.AdmissionRequest) :
    http.Header_Get (http.Header_of r) "Content-Type" = "application/json" ->
    requestBody r = Ok data ->
    decodeAdmissionReview codecs data = Ok review ->
    admissionv1.Request review = Some request ->
    admissionv1.Resource request <> podResource ->
    let msg := "did not receive pod, got "
               +:+ metav1.Resource (admissionv1.Resource request) in
    Path codecs marshal r
      (Returned tt (mkWorld (failed 400 msg) (decodedEnvelope r data ++ [EvLogPrintf msg])))
| path_pod_error (data : list Byte.byte) (review : admissionv1.AdmissionReview)
    (request : admissionv1.AdmissionRequest) (err : error) :
    http.Header_Get (http.Header_of r) "Content-Type" = "application/json" ->
    requestBody r = Ok data ->
    decodeAdmissionReview codecs data = Ok review ->
    admissionv1.Request review = Some request ->
    admissionv1.Resource request = podResource ->
    decodePod codecs (runtime.Raw (admissionv1.Object request)) = Err err ->
    let msg := "error decoding raw pod: " +:+ err in
    Path codecs marshal r
      (Returned tt
         (mkWorld (failed 500 msg)
            ((decodedEnvelope r data
                ++ [EvDecodePod (runtime.Raw (admissionv1.Object request))])
               ++ [EvLogPrintf msg])))
| path_marshal_error (data : list Byte.byte) (review : admissionv1.AdmissionReview)
    (request : admissionv1.AdmissionRequest) (pod : corev1.Pod) (err : error) :
    http.Header_Get (http.Header_of r) "Content-Type" = "application/json" ->
    requestBody r = Ok data ->
    decodeAdmissionReview codecs data = Ok review ->
    admissionv1.Request review = Some request ->
    admissionv1.Resource request = podResource ->
    decodePod codecs (runtime.Raw (admissionv1.Object request)) = Ok pod ->
    marshal (admissionReviewResponseFor review request pod) = Err err ->
    let msg := "error marshalling response json: " +:+ err in
    Path codecs marshal r
      (Returned tt
         (mkWorld (failed 500 msg)
            (((decodedEnvelope r data
                 ++ [EvDecodePod (runtime.Raw (admissionv1.Object request))])
                ++ [EvJsonMarshal (admissionReviewResponseFor review request pod)])
               ++ [EvLogPrintf msg])))
| path_answered (data : list Byte.byte) (review : admissionv1.AdmissionReview)
    (request : admissionv1.AdmissionRequest) (pod : corev1.Pod) (resp : list Byte.byte) :
    http.Header_Get (http.Header_of r) "Content-Type" = "application/json" ->
    requestBody r = Ok data ->
    decodeAdmissionReview codecs data = Ok review ->
    admissionv1.Request review = Some request ->
    admissionv1.Resource request = podResource ->
    decodePod codecs (runtime.Raw (admissionv1.Object request)) = Ok pod ->
    marshal (admissionReviewResponseFor review request pod) = Ok resp ->
    Path codecs marshal r
      (Returned tt
         (mkWorld
            (http.Write resp
               (http.SetHeader "Content-Type" "application/json"
                  http.newResponseWriter))
            ((decodedEnvelope r data
                ++ [EvDecodePod (runtime.Raw (admissionv1.Object request))])
               ++ [EvJsonMarshal (admissionReviewResponseFor review request pod)]))).

(** The request was evaluated: its envelope decodes, is about a Pod, and the
    Pod decodes. *)
Definition evaluated (codecs : Decoder) (r : http.Request)
    (review : admissionv1.AdmissionReview) (request : admissionv1.AdmissionRequest)
    (pod : corev1.Pod) : Prop :=
  http.Header_Get (http.Header_of r) "Content-Type" = "application/json"
  /\ (exists data, requestBody r = Ok data
                   /\ decodeAdmissionReview codecs data = Ok review)
  /\ admissionv1.Request review = Some request
  /\ admissionv1.Resource request = podResource
  /\ decodePod codecs (runtime.Raw (admissionv1.Object request)) = Ok pod.

(** The response header [Content-Type], as the client gets it. *)
Definition contentTypeOf {A} (o : Outcome A) : string :=
  http.Header_Get (http.rw_Header (writer (worldOf o))) "Content-Type".

(** ** Starting the server: [rootCmd.Run] and [runWebhookServer] *)

(** [fmt.Sprintf("%d", n)] *)
Definition Sprintf_d (n : Z) : string := NilZero.string_of_int (Z.to_int n).

Section Startup.

(** [tls.Certificate], of which the code only passes values on. *)
Variable Certificate : Type.

(** The [http.Server] the code builds: its address and its TLS
    certificates. *)
Record Server := mkServer {
  Addr : string;
  Certificates : list Certificate
}.

(** What the process does to the outside while it starts. *)
Inductive StartEvent : Type :=
| StPrintln (line : string)
| StLoadX509KeyPair (certFile keyFile : string)
| StHandleFunc (pattern : string)
| StListenAndServeTLS (server : Server).

(** How the process ends: [os.Exit(code)], a panic, or a return. *)
Inductive Ending : Type :=
| Exits (code : Z)
| Panics (err : error)
| Returns.

(** [tls.LoadX509KeyPair], and [server.ListenAndServeTLS("", "")], whose
    result is an error or nil. *)
Variable tls_LoadX509KeyPair : string -> string -> result Certificate.
Variable ListenAndServeTLS : Server -> option error.

Definition runWebhookServer (port : Z) (certFile keyFile : string)
  : list StartEvent * Ending :=
  match tls_LoadX509KeyPair certFile keyFile with
  | Err err => ([StLoadX509KeyPair certFile keyFile], Panics err)
  | Ok cert =>
      let server := mkServer (":" +:+ Sprintf_d port) [cert] in
      ([StLoadX509KeyPair certFile keyFile;
        StPrintln "Starting webhook server";
        StHandleFunc "/validate";
        StListenAndServeTLS server],
       match ListenAndServeTLS server with
       | Some err => Panics err
       | None => Returns
       end)
  end.

(** The [Run] function of [rootCmd], on the values of the three flags. *)
Definition rootCmd_Run (tlsCert tlsKey : string) (port : Z)
  : list StartEvent * Ending :=
  if bool_decide (tlsCert = "") || bool_decide (tlsKey = "") then
    ([StPrintln "--tls-cert and --tls-key required"], Exits 1)
  else runWebhookServer port tlsCert tlsKey.

End Startup.

Arguments StPrintln {Certificate} line.
Arguments StLoadX509KeyPair {Certificate} certFile keyFile.
Arguments StHandleFunc {Certificate} pattern.
Arguments StListenAndServeTLS {Certificate} server.
Arguments mkServer {Certificate} Addr Certificates.
Arguments Addr {Certificate} s.
Arguments Certificates {Certificate} s.

(** The defaults that [init] gives the flags. *)
Definition default_tlsCert : string := "".
Definition default_tlsKey : string := "".
Definition default_port : Z := 443.

(** A key pair loader that knows one pair of files, and a listener that
    fails as a port in use does. *)
Module SampleStartup.

Definition load (certFile keyFile : string) : result string :=
  if String.eqb certFile "/etc/opt/tls.crt" && String.eqb keyFile "/etc/opt/tls.key"
  then Ok "webhook-certificate"
  else Err ("open " +:+ certFile +:+ ": no such file or directory").

Definition listen (server : Server string) : option error :=
  Some ("listen tcp " +:+ Addr server +:+ ": bind: address already in use").

End SampleStartup.

(** ** Sample requests, with a deserializer over a table of bodies *)
Module Sample.

Definition reviewMeta : metav1.TypeMeta :=
  metav1.mkTypeMeta "AdmissionReview" "admission.k8s.io/v1".

Definition reviewOf (uid resource : string) (group : string) (raw : string)
  : admissionv1.AdmissionReview :=
  admissionv1.mkAdmissionReview reviewMeta
    (Some (admissionv1.mkAdmissionRequest uid
             (metav1.mkGroupVersionResource group "v1" resource)
             (runtime.mkRawExtension (bytes_of raw))))
    None.

Definition reviewTable : list (string * admissionv1.AdmissionReview) :=
  [ ("review:no-labels", reviewOf "uid-1" "pods" "" "pod:no-labels");
    ("review:world", reviewOf "uid-2" "pods" "" "pod:world");
    ("review:there", reviewOf "uid-3" "pods" "" "pod:there");
    ("review:broken-pod", reviewOf "uid-4" "pods" "" "pod:{");
    ("review:deployment", reviewOf "uid-5" "deployments" "apps" "deployment");
    ("review:configmap", reviewOf "uid-6" "configmaps" "" "configmap");
    ("review:no-request",
     admissionv1.mkAdmissionReview reviewMeta None None) ].

Definition podTable : list (string * corev1.Pod) :=
  [ ("pod:no-labels", corev1.mkPod (<["app" := "web"]> ∅));
    ("pod:world", corev1.mkPod (<["hello" := "world"]> ∅));
    ("pod:there", corev1.mkPod (<["hello" := "there"]> ∅)) ].

Fixpoint find {A} (table : list (string * A)) (key : string) : result A :=
  match table with
  | [] => Err "couldn't get version/kind; json parse error"
  | (k, v) :: table' => if String.eqb k key then Ok v else find table' key
  end.

Definition deserializer : Decoder :=
  mkDecoder (fun data => find reviewTable (string_of_list_byte data))
            (fun data => find podTable (string_of_list_byte data)).

(** A serializer that never fails. *)
Definition marshal (v : admissionv1.AdmissionReview) : result (list Byte.byte) :=
  Ok (bytes_of ("uid=" +:+ match admissionv1.Response v with
                           | Some a => admissionv1.resp_UID a
                           | None => ""
                           end)).

Definition post (contentType body : string) : http.Request :=
  http.mkRequest (<["Content-Type" := [contentType]]> ∅) (Some (Ok (bytes_of body))).

End Sample.

(** Envelopes whose type is spelled in other ways: an [apiVersion] with a
    leading slash, and Pods of other groups and versions.  The serializer
    prints the type and the UID of what it is given. *)
Module SampleTypes.

Definition slashReview : admissionv1.AdmissionReview :=
  admissionv1.mkAdmissionReview (metav1.mkTypeMeta "AdmissionReview" "/v1")
    (Some (admissionv1.mkAdmissionRequest "uid-7" podResource
             (runtime.mkRawExtension (bytes_of "pod:there"))))
    None.

Definition podsOf (uid group version : string) : admissionv1.AdmissionReview :=
  admissionv1.mkAdmissionReview Sample.reviewMeta
    (Some (admissionv1.mkAdmissionRequest uid
             (metav1.mkGroupVersionResource group version "pods")
             (runtime.mkRawExtension (bytes_of "pod:there"))))
    None.

Definition reviewTable : list (string * admissionv1.AdmissionReview) :=
  [ ("review:slash-v1", slashReview);
    ("review:apps-pods", podsOf "uid-8" "apps" "v1");
    ("review:metrics-pods", podsOf "uid-9" "metrics.k8s.io" "v1beta1") ].

Definition deserializer : Decoder :=
  mkDecoder (fun data => Sample.find reviewTable (string_of_list_byte data))
            (fun data => Sample.find Sample.podTable (string_of_list_byte data)).

Definition marshal (v : admissionv1.AdmissionReview) : result (list Byte.byte) :=
  Ok (bytes_of ("apiVersion=" +:+ metav1.APIVersion (admissionv1.TypeMeta v)
                +:+ " kind=" +:+ metav1.Kind (admissionv1.TypeMeta v)
                +:+ " uid=" +:+ match admissionv1.Response v with
                                | Some a => admissionv1.resp_UID a
                                | None => ""
                                end)).

End SampleTypes.


(** * Properties *)

(** ** Strings: cutting at the first separator *)

Lemma length_zero_empty (s : string) : String.length s = 0%nat <-> s = "".
Proof. destruct s; simpl; split; intros H; congruence. Qed.

Lemma append_cons (a : ascii) (s t : string) : String a s +:+ t = String a (s +:+ t).
Proof. reflexivity. Qed.

Lemma substring_whole (s : string) : String.substring 0 (String.length s) s = s.
Proof. induction s as [|a s IH]; simpl; [reflexivity | now rewrite IH]. Qed.

Lemma slice_prefix_cons (a : ascii) (s : string) (i : nat) :
  strings.slice (String a s) 0 (S i) = String a (strings.slice s 0 i).
Proof. unfold strings.slice. simpl. now rewrite Nat.sub_0_r. Qed.

Lemma slice_suffix_cons (a : ascii) (s : string) (i : nat) :
  strings.slice (String a s) (S i) (String.length (String a s))
  = strings.slice s i (String.length s).
Proof. reflexivity. Qed.

Lemma Index_cut (c : ascii) (s : string) :
  forall i, strings.Index s c = Some i ->
    s = strings.slice s 0 i +:+ String c (strings.slice s (i + 1) (String.length s))
    /\ strings.Count (strings.slice s 0 i) c = 0%nat
    /\ strings.Count s c = S (strings.Count (strings.slice s (i + 1) (String.length s)) c).
Proof.
  induction s as [|a s IH]; intros i Hi; simpl in Hi; [discriminate|].
  destruct (Ascii.eqb a c) eqn:Hac.
  - apply Ascii.eqb_eq in Hac. subst a. injection Hi as <-.
    change (strings.slice (String c s) (0 + 1) (String.length (String c s)))
      with (String.substring 0 (String.length s - 0) s).
    rewrite Nat.sub_0_r, substring_whole.
    repeat split.
    + simpl. now rewrite Ascii.eqb_refl.
  - destruct (strings.Index s c) as [j|] eqn:Hj; [|discriminate].
    injection Hi as <-.
    destruct (IH j eq_refl) as (Hs & Hp & Hc).
    replace (S j + 1)%nat with (S (j + 1)) by reflexivity.
    rewrite slice_prefix_cons, slice_suffix_cons.
    repeat split.
    + rewrite append_cons. now rewrite <- Hs.
    + cbn [strings.Count]. now rewrite Hac, Hp.
    + cbn [strings.Count]. now rewrite Hac, Hc.
Qed.

Lemma Index_zero_head (c : ascii) (s : string) :
  strings.Index s c = Some 0%nat <-> exists s', s = String c s'.
Proof.
  split.
  - destruct s as [|a s]; simpl; [discriminate|].
    destruct (Ascii.eqb a c) eqn:Hac.
    + apply Ascii.eqb_eq in Hac. subst. eauto.
    + destruct (strings.Index s c); discriminate.
  - intros [s' ->]. simpl. now rewrite Ascii.eqb_refl.
Qed.

Lemma slice_prefix_empty (c : ascii) (s : string) (i : nat) :
  strings.Index s c = Some i -> strings.slice s 0 i = "" -> i = 0%nat.
Proof.
  destruct s as [|a s]; simpl; [discriminate|].
  destruct (Ascii.eqb a c); [congruence|].
  destruct (strings.Index s c) as [j|]; [|discriminate].
  intros [= <-]. rewrite slice_prefix_cons. discriminate.
Qed.

(** ** Group, version and kind survive [SetGroupVersionKind] *)

Lemma ParseGroupVersion_empty : schema.ParseGroupVersion "" = Ok (schema.mkGroupVersion "" "").
Proof. reflexivity. Qed.

Lemma ParseGroupVersion_bare (v : string) :
  v <> "" -> strings.Count v schema.slash = 0%nat ->
  schema.ParseGroupVersion v = Ok (schema.mkGroupVersion "" v).
Proof.
  intros Hv Hc. unfold schema.ParseGroupVersion.
  rewrite bool_decide_false by (now rewrite length_zero_empty).
  rewrite bool_decide_false by (intros ->; discriminate).
  simpl. now rewrite Hc.
Qed.

(** Writing back a kind that has neither group nor version. *)
Lemma From_To_kind_only (k : string) :
  let tk := schema.ToAPIVersionAndKind (schema.mkGroupVersionKind "" "" k) in
  schema.FromAPIVersionAndKind tk.1 tk.2 = schema.mkGroupVersionKind "" "" k.
Proof. destruct k; reflexivity. Qed.

(** Writing back a bare version. *)
Lemma From_To_bare (v k : string) :
  v <> "" -> strings.Count v schema.slash = 0%nat ->
  let tk := schema.ToAPIVersionAndKind (schema.mkGroupVersionKind "" v k) in
  tk = (v, k).
Proof.
  intros Hv Hc. destruct v; [congruence | reflexivity].
Qed.

(** Writing back a group and a version. *)
Lemma From_To_grouped (g v k : string) :
  g <> "" ->
  schema.ToAPIVersionAndKind (schema.mkGroupVersionKind g v k) = (g +:+ "/" +:+ v, k).
Proof. intros Hg. destruct g; [congruence | reflexivity]. Qed.

Lemma FromAPIVersionAndKind_cases (a k : string) :
  schema.FromAPIVersionAndKind a k = schema.mkGroupVersionKind "" "" k
  \/ (a <> "" /\ strings.Count a schema.slash = 0%nat
      /\ schema.FromAPIVersionAndKind a k = schema.mkGroupVersionKind "" a k)
  \/ (exists g v, a = g +:+ String schema.slash v
        /\ strings.Count g schema.slash = 0%nat
        /\ strings.Count v schema.slash = 0%nat
        /\ (g = "" -> v <> "")
        /\ schema.FromAPIVersionAndKind a k = schema.mkGroupVersionKind g v k).
Proof.
  unfold schema.FromAPIVersionAndKind, schema.ParseGroupVersion.
  destruct (bool_decide (String.length a = 0%nat)) eqn:Hlen; [now left|].
  destruct (bool_decide (a = "/")) eqn:Hs; [now left|].
  apply bool_decide_eq_false in Hlen, Hs. rewrite length_zero_empty in Hlen.
  simpl.
  destruct (strings.Count a schema.slash) as [|[|n]] eqn:Hc; [right; left; auto| |now left].
  destruct (strings.Index a schema.slash) as [i|] eqn:Hi; [|now left].
  right; right.
  destruct (Index_cut _ _ _ Hi) as (Ha & Hg & Hv).
  eexists _, _. split; [exact Ha|]. repeat split; auto.
  - rewrite Hc in Hv. now injection Hv.
  - intros Hg0 Hv0. apply Hs. rewrite Ha, Hg0, Hv0. reflexivity.
Qed.

Lemma From_To_From (a k : string) :
  let gvk := schema.FromAPIVersionAndKind a k in
  let tk := schema.ToAPIVersionAndKind gvk in
  schema.FromAPIVersionAndKind tk.1 tk.2 = gvk.
Proof.
  destruct (FromAPIVersionAndKind_cases a k)
    as [E | [(Ha & Hc & E) | (g & v & Ha & Hg & Hv & Hgv & E)]];
    cbv zeta; rewrite E.
  - apply From_To_kind_only.
  - rewrite (From_To_bare a k Ha Hc). simpl. now rewrite <- E.
  - destruct (decide (g = "")) as [->|Hne].
    + specialize (Hgv eq_refl).
      rewrite (From_To_bare v k Hgv Hv). simpl.
      unfold schema.FromAPIVersionAndKind.
      now rewrite (ParseGroupVersion_bare v Hgv Hv).
    + rewrite (From_To_grouped g v k Hne). simpl.
      change (g +:+ "/" +:+ v) with (g +:+ String schema.slash v).
      now rewrite <- Ha.
Qed.

(** The response's type meta reads back as the request's group, version and
    kind, whatever the request's [apiVersion] string is. *)
Lemma GroupVersionKind_SetGroupVersionKind (obj : metav1.TypeMeta) :
  metav1.GroupVersionKind (metav1.SetGroupVersionKind (metav1.GroupVersionKind obj))
  = metav1.GroupVersionKind obj.
Proof.
  unfold metav1.GroupVersionKind, metav1.SetGroupVersionKind.
  pose proof (From_To_From (metav1.APIVersion obj) (metav1.Kind obj)) as H.
  cbv zeta in H.
  destruct (schema.ToAPIVersionAndKind _) as [apiVersion kind]. exact H.
Qed.

(** The [kind] string is copied as it is. *)
Lemma Kind_SetGroupVersionKind (obj : metav1.TypeMeta) :
  metav1.Kind (metav1.SetGroupVersionKind (metav1.GroupVersionKind obj)) = metav1.Kind obj.
Proof.
  unfold metav1.GroupVersionKind, metav1.SetGroupVersionKind,
    schema.ToAPIVersionAndKind, schema.FromAPIVersionAndKind.
  destruct (schema.ParseGroupVersion _) as [gv|e]; simpl;
    match goal with |- context [schema.Empty ?g] => destruct (schema.Empty g) eqn:He end;
    simpl; try reflexivity;
    unfold schema.Empty in He; simpl in He;
    try (apply andb_prop in He as [_ He]); apply bool_decide_eq_true in He;
    apply length_zero_empty in He; now rewrite He.
Qed.

(** The [apiVersion] string is copied as it is when it is in the form that
    [GroupVersion.String] prints: at most one slash, and not a leading one. *)
Lemma APIVersion_SetGroupVersionKind (obj : metav1.TypeMeta) :
  (strings.Count (metav1.APIVersion obj) schema.slash <= 1)%nat ->
  strings.Index (metav1.APIVersion obj) schema.slash <> Some 0%nat ->
  metav1.SetGroupVersionKind (metav1.GroupVersionKind obj) = obj.
Proof.
  destruct obj as [k a]. simpl. intros Hle Hhead.
  unfold metav1.GroupVersionKind, metav1.SetGroupVersionKind. simpl.
  destruct (decide (a = "")) as [->|Hne].
  { destruct k; reflexivity. }
  destruct (FromAPIVersionAndKind_cases a k)
    as [E | [(Ha & Hc & E) | (g & v & Ha & Hg & Hv & Hgv & E)]].
  - exfalso. revert E. unfold schema.FromAPIVersionAndKind, schema.ParseGroupVersion.
    rewrite bool_decide_false by (now rewrite length_zero_empty).
    rewrite bool_decide_false
      by (intros ->; apply Hhead; reflexivity).
    simpl.
    destruct (strings.Count a schema.slash) as [|[|n]] eqn:Hc; [| |lia].
    + intros [= E]. congruence.
    + destruct (strings.Index a schema.slash) as [i|] eqn:Hi.
      * intros [= E1 E2].
        apply Hhead. f_equal. eapply slice_prefix_empty; eauto.
      * clear -Hc Hi. exfalso. induction a as [|c a IH]; simpl in *; [discriminate|].
        destruct (Ascii.eqb c schema.slash); [discriminate|].
        destruct (strings.Index a schema.slash); [discriminate|]. auto.
  - rewrite E, (From_To_bare a k Ha Hc). reflexivity.
  - rewrite E. destruct (decide (g = "")) as [->|Hg0].
    + exfalso. apply Hhead. apply Index_zero_head. eauto.
    + rewrite (From_To_grouped g v k Hg0).
      change (g +:+ "/" +:+ v) with (g +:+ String schema.slash v).
      now rewrite <- Ha.
Qed.

Example apiVersion_leading_slash :
  metav1.SetGroupVersionKind (metav1.GroupVersionKind (metav1.mkTypeMeta "AdmissionReview" "/v1"))
  = metav1.mkTypeMeta "AdmissionReview" "v1".
Proof. reflexivity. Qed.

(** ** Runs of the handler, path by path *)

Lemma bind_Returned {A B} (m : M A) (k : A -> M B) (σ σ' : World) (v : A) :
  m σ = Returned v σ' -> (m ≫= k) σ = k v σ'.
Proof. intros H. unfold mbind, M_bind. now rewrite H. Qed.

(** Unfolds the monad and the primitive effects in the goal. *)
Ltac run :=
  cbv beta iota zeta delta
    [mbind M_bind mret M_ret ioutil_ReadAll Decode_AdmissionReview Decode_Pod
     logger_Printf w_WriteHeader w_Write w_Header_Set emit onWriter];
  simpl.

(** Runs the first computation of a bind, given how it returns. *)
Ltac advance_by tac := erewrite bind_Returned by tac; cbv beta.
Ltac advance := advance_by ltac:(reflexivity).

Lemma fail_run (statusCode : Z) (msg : string) (tr : list Event) :
  fail statusCode msg (mkWorld http.newResponseWriter tr)
  = Returned tt (mkWorld (failed statusCode msg) (tr ++ [EvLogPrintf msg])).
Proof. reflexivity. Qed.

Section Runs.

Variable codecs : Decoder.
Variable marshal : admissionv1.AdmissionReview -> result (list Byte.byte).

Lemma admissionReviewFromRequest_content_type (r : http.Request) (σ : World) :
  http.Header_Get (http.Header_of r) "Content-Type" <> "application/json" ->
  admissionReviewFromRequest r codecs σ
  = Returned (Err "expected application/json content-type") σ.
Proof.
  intros H. unfold admissionReviewFromRequest.
  now rewrite bool_decide_true.
Qed.

Lemma admissionReviewFromRequest_read_error (r : http.Request) (err : error) (σ : World) :
  http.Header_Get (http.Header_of r) "Content-Type" = "application/json" ->
  http.Body r = Some (Err err) ->
  admissionReviewFromRequest r codecs σ
  = Returned (Err err) (mkWorld (writer σ) (trace σ ++ [EvReadAll])).
Proof.
  intros H Hb. unfold admissionReviewFromRequest.
  rewrite bool_decide_false by (intros Hn; now apply Hn).
  rewrite Hb. reflexivity.
Qed.

Lemma admissionReviewFromRequest_decode
    (r : http.Request) (data : list Byte.byte) (σ : World) :
  http.Header_Get (http.Header_of r) "Content-Type" = "application/json" ->
  requestBody r = Ok data ->
  admissionReviewFromRequest r codecs σ
  = Returned (decodeAdmissionReview codecs data)
      (mkWorld (writer σ)
         (trace σ ++ readEvents r ++ [EvDecodeAdmissionReview data])).
Proof.
  intros H Hb. unfold admissionReviewFromRequest, requestBody, readEvents in *.
  rewrite bool_decide_false by (intros Hn; now apply Hn).
  destruct (http.Body r) as [rc|].
  - subst rc. run. now rewrite <- app_assoc.
  - injection Hb as <-. reflexivity.
Qed.

Lemma validatePod_content_type (r : http.Request) :
  http.Header_Get (http.Header_of r) "Content-Type" <> "application/json" ->
  let msg := "error getting admission review from request: "
             +:+ "expected application/json content-type" in
  validatePod codecs marshal r initWorld
  = Returned tt (mkWorld (failed 400 msg) (entry ++ [EvLogPrintf msg])).
Proof.
  intros H msg. unfold validatePod.
  advance.
  rewrite (bind_Returned _ _ _ _ _ (admissionReviewFromRequest_content_type r _ H)).
  reflexivity.
Qed.

Lemma validatePod_read_error (r : http.Request) (err : error) :
  http.Header_Get (http.Header_of r) "Content-Type" = "application/json" ->
  http.Body r = Some (Err err) ->
  let msg := "error getting admission review from request: " +:+ err in
  validatePod codecs marshal r initWorld
  = Returned tt (mkWorld (failed 400 msg) (entry ++ [EvReadAll] ++ [EvLogPrintf msg])).
Proof.
  intros H Hb msg. unfold validatePod.
  advance.
  rewrite (bind_Returned _ _ _ _ _ (admissionReviewFromRequest_read_error r err _ H Hb)).
  reflexivity.
Qed.

(** Everything up to the decoded envelope. *)
Lemma validatePod_enter (r : http.Request) (data : list Byte.byte) :
  http.Header_Get (http.Header_of r) "Content-Type" = "application/json" ->
  requestBody r = Ok data ->
  forall k : result admissionv1.AdmissionReview -> M unit,
    (logger_Printf "received message on validate" ;;
     got ← admissionReviewFromRequest r codecs; k got) initWorld
    = k (decodeAdmissionReview codecs data)
        (mkWorld http.newResponseWriter (decodedEnvelope r data)).
Proof.
  intros H Hb k.
  advance.
  rewrite (bind_Returned _ _ _ _ _ (admissionReviewFromRequest_decode r data _ H Hb)).
  reflexivity.
Qed.

Lemma validatePod_envelope_error (r : http.Request) (data : list Byte.byte) (err : error) :
  http.Header_Get (http.Header_of r) "Content-Type" = "application/json" ->
  requestBody r = Ok data ->
  decodeAdmissionReview codecs data = Err err ->
  let msg := "error getting admission review from request: " +:+ err in
  validatePod codecs marshal r initWorld
  = Returned tt (mkWorld (failed 400 msg) (decodedEnvelope r data ++ [EvLogPrintf msg])).
Proof.
  intros H Hb Hd msg. unfold validatePod.
  rewrite (validatePod_enter r data H Hb), Hd. apply fail_run.
Qed.

Lemma validatePod_nil_request
    (r : http.Request) (data : list Byte.byte) (review : admissionv1.AdmissionReview) :
  http.Header_Get (http.Header_of r) "Content-Type" = "application/json" ->
  requestBody r = Ok data ->
  decodeAdmissionReview codecs data = Ok review ->
  admissionv1.Request review = None ->
  validatePod codecs marshal r initWorld
  = Panicked "runtime error: invalid memory address or nil pointer dereference"
      (mkWorld http.newResponseWriter (decodedEnvelope r data)).
Proof.
  intros H Hb Hd Hn. unfold validatePod.
  rewrite (validatePod_enter r data H Hb), Hd, Hn. reflexivity.
Qed.

Lemma validatePod_not_pod
    (r : http.Request) (data : list Byte.byte) (review : admissionv1.AdmissionReview)
    (request : admissionv1.AdmissionRequest) :
  http.Header_Get (http.Header_of r) "Content-Type" = "application/json" ->
  requestBody r = Ok data ->
  decodeAdmissionReview codecs data = Ok review ->
  admissionv1.Request review = Some request ->
  admissionv1.Resource request <> podResource ->
  let msg := "did not receive pod, got "
             +:+ metav1.Resource (admissionv1.Resource request) in
  validatePod codecs marshal r initWorld
  = Returned tt (mkWorld (failed 400 msg) (decodedEnvelope r data ++ [EvLogPrintf msg])).
Proof.
  intros H Hb Hd Hr Hne msg. unfold validatePod.
  rewrite (validatePod_enter r data H Hb), Hd, Hr.
  advance.
  rewrite bool_decide_true by assumption.
  advance.
  apply fail_run.
Qed.

Lemma validatePod_pod_error
    (r : http.Request) (data : list Byte.byte) (review : admissionv1.AdmissionReview)
    (request : admissionv1.AdmissionRequest) (err : error) :
  http.Header_Get (http.Header_of r) "Content-Type" = "application/json" ->
  requestBody r = Ok data ->
  decodeAdmissionReview codecs data = Ok review ->
  admissionv1.Request review = Some request ->
  admissionv1.Resource request = podResource ->
  decodePod codecs (runtime.Raw (admissionv1.Object request)) = Err err ->
  let msg := "error decoding raw pod: " +:+ err in
  validatePod codecs marshal r initWorld
  = Returned tt
      (mkWorld (failed 500 msg)
         ((decodedEnvelope r data
             ++ [EvDecodePod (runtime.Raw (admissionv1.Object request))])
            ++ [EvLogPrintf msg])).
Proof.
  intros H Hb Hd Hr Heq Hp msg. unfold validatePod.
  rewrite (validatePod_enter r data H Hb), Hd, Hr.
  advance.
  rewrite bool_decide_false by (intros Hn; now apply Hn).
  advance.
  advance.
  rewrite Hp. apply fail_run.
Qed.

(** The run of a request that is evaluated: the response is built, handed
    to [json.Marshal], and the outcome depends on the serializer only. *)
Lemma validatePod_evaluated
    (r : http.Request) (data : list Byte.byte) (review : admissionv1.AdmissionReview)
    (request : admissionv1.AdmissionRequest) (pod : corev1.Pod) :
  http.Header_Get (http.Header_of r) "Content-Type" = "application/json" ->
  requestBody r = Ok data ->
  decodeAdmissionReview codecs data = Ok review ->
  admissionv1.Request review = Some request ->
  admissionv1.Resource request = podResource ->
  decodePod codecs (runtime.Raw (admissionv1.Object request)) = Ok pod ->
  let response := admissionReviewResponseFor review request pod in
  let tr := ((decodedEnvelope r data
                ++ [EvDecodePod (runtime.Raw (admissionv1.Object request))])
               ++ [EvJsonMarshal response])%list in
  validatePod codecs marshal r initWorld
  = match marshal response with
    | Ok resp =>
        Returned tt
          (mkWorld
             (http.Write resp
                (http.SetHeader "Content-Type" "application/json"
                   http.newResponseWriter))
             tr)
    | Err err =>
        let msg := "error marshalling response json: " +:+ err in
        Returned tt (mkWorld (failed 500 msg) (tr ++ [EvLogPrintf msg]))
    end.
Proof.
  intros H Hb Hd Hr Heq Hp response tr. unfold validatePod.
  rewrite (validatePod_enter r data H Hb), Hd, Hr.
  advance.
  rewrite bool_decide_false by (intros Hn; now apply Hn).
  advance.
  advance.
  rewrite Hp.
  advance.
  advance.
  advance.
  change (marshal _) with (marshal response).
  destruct (marshal response) as [resp|err]; reflexivity.
Qed.

End Runs.

(** ** The policy on the [hello] label *)

Example policy_no_labels :
  podAdmissionResponse (corev1.mkPod ∅)
  = admissionv1.mkAdmissionResponse "" false
      (Some (metav1.mkStatus "missing required hello label")) [].
Proof. reflexivity. Qed.

Example policy_world :
  podAdmissionResponse (corev1.mkPod {["hello" := "world"]})
  = admissionv1.mkAdmissionResponse "" true None
      ["world will be deprecated for hello in the future"].
Proof. reflexivity. Qed.

Example policy_there :
  podAdmissionResponse (corev1.mkPod {["hello" := "there"]})
  = admissionv1.mkAdmissionResponse "" true None [].
Proof. reflexivity. Qed.


(** C1: a Pod whose labels do not contain the key [hello] is rejected, with
    the status message [missing required hello label] and no warnings. *)
Theorem policy_missing_hello (pod : corev1.Pod) :
  corev1.Labels pod !! "hello" = None ->
  let a := podAdmissionResponse pod in
  admissionv1.Allowed a = false
  /\ admissionv1.Result a = Some (metav1.mkStatus "missing required hello label")
  /\ messageOf a = Some "missing required hello label"
  /\ admissionv1.Warnings a = [].
Proof.
  intros H a. subst a. unfold podAdmissionResponse, messageOf. rewrite H.
  repeat split.
Qed.

Lemma policy_missing_hello_witness :
  let pod := corev1.mkPod (<["app" := "web"]> ∅) in
  corev1.Labels pod !! "hello" = None
  /\ admissionv1.Allowed (podAdmissionResponse pod) = false
  /\ messageOf (podAdmissionResponse pod) = Some "missing required hello label"
  /\ admissionv1.Warnings (podAdmissionResponse pod) = [].
Proof.
  intros pod.
  assert (H : corev1.Labels pod !! "hello" = None) by (vm_compute; reflexivity).
  split; [exact H|].
  destruct (policy_missing_hello pod H) as (Ha & _ & Hm & Hw).
  auto.
Defined.

(** C2: a Pod whose label [hello] is exactly [world] is allowed, without a
    status message, and with the single warning
    [world will be deprecated for hello in the future]. *)
Theorem policy_hello_world (pod : corev1.Pod) :
  corev1.Labels pod !! "hello" = Some "world" ->
  let a := podAdmissionResponse pod in
  admissionv1.Allowed a = true
  /\ admissionv1.Result a = None
  /\ messageOf a = None
  /\ admissionv1.Warnings a = ["world will be deprecated for hello in the future"].
Proof.
  intros H a. subst a. unfold podAdmissionResponse, messageOf. rewrite H.
  repeat split.
Qed.

Lemma policy_hello_world_witness :
  let pod := corev1.mkPod (<["hello" := "world"]> (<["app" := "web"]> ∅)) in
  corev1.Labels pod !! "hello" = Some "world"
  /\ admissionv1.Allowed (podAdmissionResponse pod) = true
  /\ messageOf (podAdmissionResponse pod) = None
  /\ admissionv1.Warnings (podAdmissionResponse pod)
     = ["world will be deprecated for hello in the future"].
Proof.
  intros pod.
  assert (H : corev1.Labels pod !! "hello" = Some "world") by (vm_compute; reflexivity).
  split; [exact H|].
  destruct (policy_hello_world pod H) as (Ha & _ & Hm & Hw).
  auto.
Defined.

(** C3: a Pod whose label [hello] has any value other than [world] (the
    comparison is on the exact string, so [World] and the empty string are
    such values) is allowed, without a status message and without
    warnings. *)
Theorem policy_hello_other (pod : corev1.Pod) (v : string) :
  corev1.Labels pod !! "hello" = Some v ->
  v <> "world" ->
  let a := podAdmissionResponse pod in
  admissionv1.Allowed a = true
  /\ admissionv1.Result a = None
  /\ messageOf a = None
  /\ admissionv1.Warnings a = [].
Proof.
  intros H Hv a. subst a. unfold podAdmissionResponse, messageOf. rewrite H.
  rewrite bool_decide_false by assumption.
  repeat split.
Qed.

Lemma policy_hello_other_witness :
  let pod := corev1.mkPod (<["hello" := ""]> ∅) in
  corev1.Labels pod !! "hello" = Some ""
  /\ "" <> "world"
  /\ admissionv1.Allowed (podAdmissionResponse pod) = true
  /\ messageOf (podAdmissionResponse pod) = None
  /\ admissionv1.Warnings (podAdmissionResponse pod) = [].
Proof.
  intros pod.
  assert (H : corev1.Labels pod !! "hello" = Some "") by (vm_compute; reflexivity).
  assert (Hv : "" <> "world") by discriminate.
  split; [exact H|]. split; [exact Hv|].
  destruct (policy_hello_other pod "" H Hv) as (Ha & _ & Hm & Hw).
  auto.
Defined.

Example policy_hello_World_capital :
  podAdmissionResponse (corev1.mkPod (<["hello" := "World"]> ∅))
  = admissionv1.mkAdmissionResponse "" true None [].
Proof. reflexivity. Qed.


(** ** The handler's answers *)

Example run_no_labels :
  let o := validatePod Sample.deserializer Sample.marshal
             (Sample.post "application/json" "review:no-labels") initWorld in
  statusOf o = Some 200 /\ bodyOf o = bytes_of "uid=uid-1" /\ panicked o = false.
Proof. vm_compute. auto. Qed.

Example run_text_plain :
  let o := validatePod Sample.deserializer Sample.marshal
             (Sample.post "text/plain" "review:world") initWorld in
  statusOf o = Some 400
  /\ bodyOf o = bytes_of "error getting admission review from request: expected application/json content-type".
Proof. vm_compute. auto. Qed.

Example run_configmap :
  let o := validatePod Sample.deserializer Sample.marshal
             (Sample.post "application/json" "review:configmap") initWorld in
  statusOf o = Some 400 /\ bodyOf o = bytes_of "did not receive pod, got configmaps".
Proof. vm_compute. auto. Qed.

Example run_not_json :
  let o := validatePod Sample.deserializer Sample.marshal
             (Sample.post "application/json" "{") initWorld in
  statusOf o = Some 400.
Proof. vm_compute. auto. Qed.

Example run_broken_pod :
  let o := validatePod Sample.deserializer Sample.marshal
             (Sample.post "application/json" "review:broken-pod") initWorld in
  statusOf o = Some 500.
Proof. vm_compute. auto. Qed.

Example run_no_request :
  let o := validatePod Sample.deserializer Sample.marshal
             (Sample.post "application/json" "review:no-request") initWorld in
  panicked o = true /\ statusOf o = None /\ bodyOf o = [].
Proof. vm_compute. auto. Qed.


(** C4, as the code has it: for a request with a decoded envelope about a
    Pod that decodes, the AdmissionReview handed to the serializer carries
    the request's UID, has the request's [kind] string, and reads back as
    the request's group, version and kind; its [apiVersion] string is the
    request's whenever that has at most one slash, and not a leading one.
    When it serializes, it is the body of the answer. *)
Theorem response_correlates_request
    (codecs : Decoder) (marshal : admissionv1.AdmissionReview -> result (list Byte.byte))
    (r : http.Request) (data : list Byte.byte) (review : admissionv1.AdmissionReview)
    (request : admissionv1.AdmissionRequest) (pod : corev1.Pod) :
  http.Header_Get (http.Header_of r) "Content-Type" = "application/json" ->
  requestBody r = Ok data ->
  decodeAdmissionReview codecs data = Ok review ->
  admissionv1.Request review = Some request ->
  admissionv1.Resource request = podResource ->
  decodePod codecs (runtime.Raw (admissionv1.Object request)) = Ok pod ->
  let o := validatePod codecs marshal r initWorld in
  exists (response : admissionv1.AdmissionReview) (a : admissionv1.AdmissionResponse),
    EvJsonMarshal response ∈ trace (worldOf o)
    /\ match marshal response with
       | Ok resp => bodyOf o = resp
       | Err _ => statusOf o = Some 500
       end
    /\ admissionv1.Response response = Some a
    /\ admissionv1.resp_UID a = admissionv1.UID request
    /\ metav1.GroupVersionKind (admissionv1.TypeMeta response)
       = metav1.GroupVersionKind (admissionv1.TypeMeta review)
    /\ metav1.Kind (admissionv1.TypeMeta response)
       = metav1.Kind (admissionv1.TypeMeta review)
    /\ ((strings.Count (metav1.APIVersion (admissionv1.TypeMeta review)) schema.slash
         <= 1)%nat ->
        strings.Index (metav1.APIVersion (admissionv1.TypeMeta review)) schema.slash
          <> Some 0%nat ->
        metav1.APIVersion (admissionv1.TypeMeta response)
          = metav1.APIVersion (admissionv1.TypeMeta review)
        /\ admissionv1.TypeMeta response = admissionv1.TypeMeta review).
Proof.
  intros H Hb Hd Hr Heq Hp o. subst o.
  rewrite (validatePod_evaluated codecs marshal r data review request pod H Hb Hd Hr Heq Hp).
  cbv zeta.
  exists (admissionReviewResponseFor review request pod),
         (admissionv1.set_UID (admissionv1.UID request) (podAdmissionResponse pod)).
  split.
  { destruct (marshal _); cbn [worldOf trace]; set_solver. }
  split.
  { destruct (marshal _); reflexivity. }
  split; [reflexivity|]. split; [reflexivity|]. split; [|split].
  - apply GroupVersionKind_SetGroupVersionKind.
  - apply Kind_SetGroupVersionKind.
  - intros Hc Hi.
    assert (E : admissionv1.TypeMeta (admissionReviewResponseFor review request pod)
                = admissionv1.TypeMeta review)
      by (now apply APIVersion_SetGroupVersionKind).
    split; [now rewrite E | exact E].
Qed.

Lemma response_correlates_request_witness :
  let o := validatePod Sample.deserializer Sample.marshal
             (Sample.post "application/json" "review:world") initWorld in
  exists (response : admissionv1.AdmissionReview) (a : admissionv1.AdmissionResponse),
    EvJsonMarshal response ∈ trace (worldOf o)
    /\ bodyOf o = bytes_of "uid=uid-2"
    /\ admissionv1.Response response = Some a
    /\ admissionv1.resp_UID a = "uid-2"
    /\ admissionv1.TypeMeta response
       = metav1.mkTypeMeta "AdmissionReview" "admission.k8s.io/v1".
Proof.
  intros o.
  destruct (response_correlates_request Sample.deserializer Sample.marshal
              (Sample.post "application/json" "review:world")
              (bytes_of "review:world")
              (Sample.reviewOf "uid-2" "pods" "" "pod:world")
              (admissionv1.mkAdmissionRequest "uid-2" podResource
                 (runtime.mkRawExtension (bytes_of "pod:world")))
              (corev1.mkPod (<["hello" := "world"]> ∅)))
    as (response & a & Hin & Hbody & Hresp & Huid & _ & _ & Hmeta);
    try (vm_compute; reflexivity).
  exists response, a.
  split; [exact Hin|].
  split.
  { assert (Hm : Sample.marshal response = Ok (bytes_of "uid=uid-2"))
      by (unfold Sample.marshal; now rewrite Hresp, Huid).
    now rewrite Hm in Hbody. }
  split; [exact Hresp|]. split; [exact Huid|].
  apply Hmeta; [vm_compute; lia | vm_compute; discriminate].
Defined.

(** The claim C4 as it is written fails on an [apiVersion] with a leading
    slash: the request is answered with status 200, and what is serialized
    and sent has [apiVersion] [v1] where the request has [/v1]. *)
Lemma response_apiVersion_reprinted :
  let r := Sample.post "application/json" "review:slash-v1" in
  let review := SampleTypes.slashReview in
  let o := validatePod SampleTypes.deserializer SampleTypes.marshal r initWorld in
  (http.Header_Get (http.Header_of r) "Content-Type" = "application/json"
   /\ requestBody r = Ok (bytes_of "review:slash-v1")
   /\ decodeAdmissionReview SampleTypes.deserializer (bytes_of "review:slash-v1") = Ok review
   /\ (exists request,
         admissionv1.Request review = Some request
         /\ admissionv1.Resource request = podResource
         /\ is_Ok_pod (decodePod SampleTypes.deserializer
                         (runtime.Raw (admissionv1.Object request))) = true))
  /\ statusOf o = Some 200
  /\ bodyOf o = bytes_of "apiVersion=v1 kind=AdmissionReview uid=uid-7"
  /\ metav1.APIVersion (admissionv1.TypeMeta review) = "/v1"
  /\ exists response,
       trace (worldOf o)
       = [EvLogPrintf "received message on validate";
          EvReadAll;
          EvDecodeAdmissionReview (bytes_of "review:slash-v1");
          EvDecodePod (bytes_of "pod:there");
          EvJsonMarshal response]
       /\ metav1.APIVersion (admissionv1.TypeMeta response) = "v1"
       /\ metav1.APIVersion (admissionv1.TypeMeta response)
          <> metav1.APIVersion (admissionv1.TypeMeta review).
Proof.
  cbv zeta. split.
  { split; [reflexivity|]. split; [reflexivity|]. split; [reflexivity|].
    eexists. split; [reflexivity|]. split; reflexivity. }
  split; [reflexivity|]. split; [reflexivity|]. split; [reflexivity|].
  eexists. split; [vm_compute; reflexivity|]. split; [reflexivity | discriminate].
Qed.

(** C5: a request whose Content-Type is not exactly [application/json] is
    answered with status 400, and nothing is decoded: neither the envelope
    nor an embedded object. *)
Theorem content_type_rejected
    (codecs : Decoder) (marshal : admissionv1.AdmissionReview -> result (list Byte.byte))
    (r : http.Request) :
  http.Header_Get (http.Header_of r) "Content-Type" <> "application/json" ->
  let o := validatePod codecs marshal r initWorld in
  panicked o = false
  /\ statusOf o = Some 400
  /\ Forall (fun e => isDecode e = false) (trace (worldOf o))
  /\ EvReadAll ∉ trace (worldOf o).
Proof.
  intros H o. subst o. rewrite (validatePod_content_type codecs marshal r H).
  cbv zeta. repeat split.
  - repeat constructor.
  - simpl. rewrite !elem_of_cons, elem_of_nil. intros [E|[E|[]]]; discriminate.
Qed.

Lemma content_type_rejected_witness :
  let o := validatePod Sample.deserializer Sample.marshal
             (Sample.post "text/plain" "review:world") initWorld in
  panicked o = false
  /\ statusOf o = Some 400
  /\ Forall (fun e => isDecode e = false) (trace (worldOf o))
  /\ EvReadAll ∉ trace (worldOf o).
Proof.
  apply (content_type_rejected Sample.deserializer Sample.marshal
           (Sample.post "text/plain" "review:world")).
  vm_compute. discriminate.
Defined.

(** C6, as the code has it: when the decoded envelope is about a resource
    other than [{"", "v1", "pods"}], the answer has status 400, its body is
    [did not receive pod, got] followed by the resource name of the triple
    that was received (its group and version are not reported), and no Pod
    is decoded. *)
Theorem resource_type_rejected
    (codecs : Decoder) (marshal : admissionv1.AdmissionReview -> result (list Byte.byte))
    (r : http.Request) (data : list Byte.byte) (review : admissionv1.AdmissionReview)
    (request : admissionv1.AdmissionRequest) :
  http.Header_Get (http.Header_of r) "Content-Type" = "application/json" ->
  requestBody r = Ok data ->
  decodeAdmissionReview codecs data = Ok review ->
  admissionv1.Request review = Some request ->
  admissionv1.Resource request <> podResource ->
  let o := validatePod codecs marshal r initWorld in
  panicked o = false
  /\ statusOf o = Some 400
  /\ bodyOf o = bytes_of ("did not receive pod, got "
                          +:+ metav1.Resource (admissionv1.Resource request))
  /\ Forall (fun e => isDecodePod e = false) (trace (worldOf o)).
Proof.
  intros H Hb Hd Hr Hne o. subst o.
  rewrite (validatePod_not_pod codecs marshal r data review request H Hb Hd Hr Hne).
  cbv zeta. repeat split.
  unfold worldOf, trace, decodedEnvelope, entry, readEvents.
  destruct (http.Body r); repeat constructor.
Qed.

Lemma resource_type_rejected_witness :
  let o := validatePod Sample.deserializer Sample.marshal
             (Sample.post "application/json" "review:deployment") initWorld in
  panicked o = false
  /\ statusOf o = Some 400
  /\ bodyOf o = bytes_of "did not receive pod, got deployments"
  /\ Forall (fun e => isDecodePod e = false) (trace (worldOf o)).
Proof.
  apply (resource_type_rejected Sample.deserializer Sample.marshal
           (Sample.post "application/json" "review:deployment")
           (bytes_of "review:deployment")
           (Sample.reviewOf "uid-5" "deployments" "apps" "deployment")
           (admissionv1.mkAdmissionRequest "uid-5"
              (metav1.mkGroupVersionResource "apps" "v1" "deployments")
              (runtime.mkRawExtension (bytes_of "deployment"))));
    vm_compute; first [reflexivity | discriminate].
Defined.

(** The claim C6 as it is written fails for triples that differ from Pods
    in group or version only: the body names the resource [pods] and shows
    nothing of the type that was received, so that two different unexpected
    types get the same answer. *)
Lemma resource_type_body_omits_group_and_version :
  let o1 := validatePod SampleTypes.deserializer SampleTypes.marshal
              (Sample.post "application/json" "review:apps-pods") initWorld in
  let o2 := validatePod SampleTypes.deserializer SampleTypes.marshal
              (Sample.post "application/json" "review:metrics-pods") initWorld in
  (decodeAdmissionReview SampleTypes.deserializer (bytes_of "review:apps-pods")
     = Ok (SampleTypes.podsOf "uid-8" "apps" "v1")
   /\ decodeAdmissionReview SampleTypes.deserializer (bytes_of "review:metrics-pods")
      = Ok (SampleTypes.podsOf "uid-9" "metrics.k8s.io" "v1beta1")
   /\ metav1.mkGroupVersionResource "apps" "v1" "pods" <> podResource
   /\ metav1.mkGroupVersionResource "metrics.k8s.io" "v1beta1" "pods" <> podResource)
  /\ statusOf o1 = Some 400
  /\ statusOf o2 = Some 400
  /\ bodyOf o1 = bytes_of "did not receive pod, got pods"
  /\ bodyOf o2 = bytes_of "did not receive pod, got pods"
  /\ String.index 0 "apps" (string_of_list_byte (bodyOf o1)) = None
  /\ String.index 0 "metrics.k8s.io" (string_of_list_byte (bodyOf o2)) = None
  /\ String.index 0 "v1beta1" (string_of_list_byte (bodyOf o2)) = None.
Proof.
  cbv zeta. split.
  { split; [reflexivity|]. split; [reflexivity|]. split; discriminate. }
  repeat split; vm_compute; reflexivity.
Qed.

(** C7: a request that is evaluated (decoded envelope about a Pod, Pod
    decoded, response serialized) is answered with status 200, whether the
    Pod is allowed or denied. *)
Theorem evaluated_status_200
    (codecs : Decoder) (marshal : admissionv1.AdmissionReview -> result (list Byte.byte))
    (r : http.Request) (data : list Byte.byte) (review : admissionv1.AdmissionReview)
    (request : admissionv1.AdmissionRequest) (pod : corev1.Pod) (resp : list Byte.byte) :
  http.Header_Get (http.Header_of r) "Content-Type" = "application/json" ->
  requestBody r = Ok data ->
  decodeAdmissionReview codecs data = Ok review ->
  admissionv1.Request review = Some request ->
  admissionv1.Resource request = podResource ->
  decodePod codecs (runtime.Raw (admissionv1.Object request)) = Ok pod ->
  marshal (admissionReviewResponseFor review request pod) = Ok resp ->
  let o := validatePod codecs marshal r initWorld in
  panicked o = false
  /\ statusOf o = Some 200
  /\ bodyOf o = resp.
Proof.
  intros H Hb Hd Hr Heq Hp Hm o. subst o.
  rewrite (validatePod_evaluated codecs marshal r data review request pod H Hb Hd Hr Heq Hp).
  cbv zeta. rewrite Hm. repeat split.
Qed.

Lemma evaluated_status_200_witness :
  let o := validatePod Sample.deserializer Sample.marshal
             (Sample.post "application/json" "review:no-labels") initWorld in
  admissionv1.Allowed (podAdmissionResponse (corev1.mkPod (<["app" := "web"]> ∅))) = false
  /\ panicked o = false
  /\ statusOf o = Some 200
  /\ bodyOf o = bytes_of "uid=uid-1".
Proof.
  split; [reflexivity|].
  assert (E := evaluated_status_200 Sample.deserializer Sample.marshal
           (Sample.post "application/json" "review:no-labels")
           (bytes_of "review:no-labels")
           (Sample.reviewOf "uid-1" "pods" "" "pod:no-labels")
           (admissionv1.mkAdmissionRequest "uid-1" podResource
              (runtime.mkRawExtension (bytes_of "pod:no-labels")))
           (corev1.mkPod (<["app" := "web"]> ∅))
           (bytes_of "uid=uid-1")).
  destruct E as (Hp & Hs & Hbody); try (vm_compute; reflexivity).
  auto.
Defined.

Example evaluated_allowed_status_200 :
  let o := validatePod Sample.deserializer Sample.marshal
             (Sample.post "application/json" "review:there") initWorld in
  admissionv1.Allowed (podAdmissionResponse (corev1.mkPod (<["hello" := "there"]> ∅))) = true
  /\ statusOf o = Some 200.
Proof. vm_compute. auto. Qed.

(** C8: when the envelope does not decode, the answer has status 400; and,
    independently, when the envelope decodes, is about a Pod, and the
    embedded object does not decode, the answer has status 500. *)
Theorem decode_failure_statuses
    (codecs : Decoder) (marshal : admissionv1.AdmissionReview -> result (list Byte.byte)) :
  (forall (r : http.Request) (data : list Byte.byte) (err : error),
     http.Header_Get (http.Header_of r) "Content-Type" = "application/json" ->
     requestBody r = Ok data ->
     decodeAdmissionReview codecs data = Err err ->
     let o := validatePod codecs marshal r initWorld in
     panicked o = false
     /\ statusOf o = Some 400
     /\ bodyOf o = bytes_of ("error getting admission review from request: " +:+ err))
  /\ (forall (r : http.Request) (data : list Byte.byte)
        (review : admissionv1.AdmissionReview) (request : admissionv1.AdmissionRequest)
        (err : error),
        http.Header_Get (http.Header_of r) "Content-Type" = "application/json" ->
        requestBody r = Ok data ->
        decodeAdmissionReview codecs data = Ok review ->
        admissionv1.Request review = Some request ->
        admissionv1.Resource request = podResource ->
        decodePod codecs (runtime.Raw (admissionv1.Object request)) = Err err ->
        let o := validatePod codecs marshal r initWorld in
        panicked o = false
        /\ statusOf o = Some 500
        /\ bodyOf o = bytes_of ("error decoding raw pod: " +:+ err)).
Proof.
  split.
  - intros r data err H Hb Hd o. subst o.
    rewrite (validatePod_envelope_error codecs marshal r data err H Hb Hd).
    cbv zeta. repeat split.
  - intros r data review request err H Hb Hd Hr Heq Hp o. subst o.
    rewrite (validatePod_pod_error codecs marshal r data review request err
               H Hb Hd Hr Heq Hp).
    cbv zeta. repeat split.
Qed.

Lemma decode_failure_statuses_witness :
  let o1 := validatePod Sample.deserializer Sample.marshal
              (Sample.post "application/json" "{") initWorld in
  let o2 := validatePod Sample.deserializer Sample.marshal
              (Sample.post "application/json" "review:broken-pod") initWorld in
  (statusOf o1 = Some 400
   /\ bodyOf o1 = bytes_of ("error getting admission review from request: "
                            +:+ "couldn't get version/kind; json parse error"))
  /\ (statusOf o2 = Some 500
      /\ bodyOf o2 = bytes_of ("error decoding raw pod: "
                               +:+ "couldn't get version/kind; json parse error")).
Proof.
  destruct (decode_failure_statuses Sample.deserializer Sample.marshal) as [H400 H500].
  split.
  - destruct (H400 (Sample.post "application/json" "{") (bytes_of "{")
                "couldn't get version/kind; json parse error")
      as (_ & Hs & Hbody); try (vm_compute; reflexivity).
    auto.
  - destruct (H500 (Sample.post "application/json" "review:broken-pod")
                (bytes_of "review:broken-pod")
                (Sample.reviewOf "uid-4" "pods" "" "pod:{")
                (admissionv1.mkAdmissionRequest "uid-4" podResource
                   (runtime.mkRawExtension (bytes_of "pod:{")))
                "couldn't get version/kind; json parse error")
      as (_ & Hs & Hbody); try (vm_compute; reflexivity).
    auto.
Defined.

(** The envelope failure alone, for a deserializer that decodes every Pod. *)
Example envelope_failure_alone :
  let codecs := mkDecoder (decodeAdmissionReview Sample.deserializer)
                          (fun _ => Ok (corev1.mkPod ∅)) in
  statusOf (validatePod codecs Sample.marshal
              (Sample.post "application/json" "{") initWorld) = Some 400.
Proof. vm_compute. reflexivity. Qed.

(** C10 does not hold of the code: when the body is accepted as an
    AdmissionReview whose [request] is nil, the read of
    [admissionReviewRequest.Request.Resource] on line 101 panics, and the
    handler has written neither a status nor a body. *)
Theorem nil_request_panics
    (codecs : Decoder) (marshal : admissionv1.AdmissionReview -> result (list Byte.byte))
    (r : http.Request) (data : list Byte.byte) (review : admissionv1.AdmissionReview) :
  http.Header_Get (http.Header_of r) "Content-Type" = "application/json" ->
  requestBody r = Ok data ->
  decodeAdmissionReview codecs data = Ok review ->
  admissionv1.Request review = None ->
  let o := validatePod codecs marshal r initWorld in
  panicked o = true
  /\ statusOf o = None
  /\ bodyOf o = [].
Proof.
  intros H Hb Hd Hn o. subst o.
  rewrite (validatePod_nil_request codecs marshal r data review H Hb Hd Hn).
  repeat split.
Qed.

Lemma nil_request_panics_witness :
  let o := validatePod Sample.deserializer Sample.marshal
             (Sample.post "application/json" "review:no-request") initWorld in
  panicked o = true /\ statusOf o = None /\ bodyOf o = [].
Proof.
  apply (nil_request_panics Sample.deserializer Sample.marshal
           (Sample.post "application/json" "review:no-request")
           (bytes_of "review:no-request")
           (admissionv1.mkAdmissionReview Sample.reviewMeta None None));
    vm_compute; reflexivity.
Defined.

(** * Further properties of the handler *)

Lemma requestBody_Err (r : http.Request) (err : error) :
  requestBody r = Err err -> http.Body r = Some (Err err).
Proof.
  unfold requestBody. destruct (http.Body r) as [rc|]; [now intros ->|discriminate].
Qed.

(** Every run of the handler from a fresh writer follows one of the paths. *)
Lemma validatePod_path
    (codecs : Decoder) (marshal : admissionv1.AdmissionReview -> result (list Byte.byte))
    (r : http.Request) :
  Path codecs marshal r (validatePod codecs marshal r initWorld).
Proof.
  destruct (decide (http.Header_Get (http.Header_of r) "Content-Type" = "application/json"))
    as [H|H].
  2: { rewrite (validatePod_content_type codecs marshal r H). now apply path_content_type. }
  destruct (requestBody r) as [data|err] eqn:Hb.
  2: { apply requestBody_Err in Hb.
       rewrite (validatePod_read_error codecs marshal r err H Hb).
       now apply path_read_error. }
  destruct (decodeAdmissionReview codecs data) as [review|err] eqn:Hd.
  2: { rewrite (validatePod_envelope_error codecs marshal r data err H Hb Hd).
       now apply path_envelope_error. }
  destruct (admissionv1.Request review) as [request|] eqn:Hr.
  2: { rewrite (validatePod_nil_request codecs marshal r data review H Hb Hd Hr).
       eapply path_nil_request; eassumption. }
  destruct (decide (admissionv1.Resource request = podResource)) as [Heq|Hne].
  2: { rewrite (validatePod_not_pod codecs marshal r data review request H Hb Hd Hr Hne).
       eapply path_not_pod; eassumption. }
  destruct (decodePod codecs (runtime.Raw (admissionv1.Object request))) as [pod|err] eqn:Hp.
  2: { rewrite (validatePod_pod_error codecs marshal r data review request err
                  H Hb Hd Hr Heq Hp).
       eapply path_pod_error; eassumption. }
  rewrite (validatePod_evaluated codecs marshal r data review request pod H Hb Hd Hr Heq Hp).
  cbv zeta.
  destruct (marshal (admissionReviewResponseFor review request pod)) as [resp|err] eqn:Hm.
  - eapply path_answered; eassumption.
  - eapply path_marshal_error; eassumption.
Qed.

(** Membership in a trace, spelled out event by event. *)
Ltac in_trace H :=
  unfold decodedEnvelope, entry, readEvents in H;
  repeat rewrite ?elem_of_app, ?elem_of_cons, ?elem_of_nil in H.

Ltac trace_goal :=
  unfold decodedEnvelope, entry, readEvents;
  repeat rewrite ?elem_of_app, ?elem_of_cons, ?elem_of_nil.

(** The handler's run on a request, replaced by the outcome of each path. *)
Ltac by_path codecs marshal r :=
  destruct (validatePod_path codecs marshal r)
    as [ Hct
       | err Hct Hbody
       | data err Hct Hbody Hdec
       | data review Hct Hbody Hdec Hreq
       | data review request Hct Hbody Hdec Hreq Hres
       | data review request err Hct Hbody Hdec Hreq Hres Hpod
       | data review request pod err Hct Hbody Hdec Hreq Hres Hpod Hmar
       | data review request pod resp Hct Hbody Hdec Hreq Hres Hpod Hmar ];
  cbv zeta.

(** X1: when reading the body fails, the answer has status 400, its body
    carries the read error, and nothing is decoded. *)
Theorem read_error_rejected
    (codecs : Decoder) (marshal : admissionv1.AdmissionReview -> result (list Byte.byte))
    (r : http.Request) (err : error) :
  http.Header_Get (http.Header_of r) "Content-Type" = "application/json" ->
  http.Body r = Some (Err err) ->
  let o := validatePod codecs marshal r initWorld in
  panicked o = false
  /\ statusOf o = Some 400
  /\ bodyOf o = bytes_of ("error getting admission review from request: " +:+ err)
  /\ Forall (fun e => isDecode e = false) (trace (worldOf o)).
Proof.
  intros H Hb o. subst o. rewrite (validatePod_read_error codecs marshal r err H Hb).
  cbv zeta. repeat split. repeat constructor.
Qed.

Lemma read_error_rejected_witness :
  let r := http.mkRequest (<["Content-Type" := ["application/json"]]> ∅)
             (Some (Err "unexpected EOF")) in
  let o := validatePod Sample.deserializer Sample.marshal r initWorld in
  statusOf o = Some 400
  /\ bodyOf o = bytes_of "error getting admission review from request: unexpected EOF".
Proof.
  intros r.
  destruct (read_error_rejected Sample.deserializer Sample.marshal r "unexpected EOF")
    as (_ & Hs & Hbody & _); try (vm_compute; reflexivity).
  auto.
Defined.

(** X2: a request without a body is not read; the deserializer is given no
    bytes. *)
Theorem nil_body_decoded_as_empty
    (codecs : Decoder) (marshal : admissionv1.AdmissionReview -> result (list Byte.byte))
    (r : http.Request) :
  http.Header_Get (http.Header_of r) "Content-Type" = "application/json" ->
  http.Body r = None ->
  let o := validatePod codecs marshal r initWorld in
  EvDecodeAdmissionReview [] ∈ trace (worldOf o)
  /\ EvReadAll ∉ trace (worldOf o).
Proof.
  intros H Hb o. subst o.
  assert (Hrb : requestBody r = Ok []) by (unfold requestBody; now rewrite Hb).
  by_path codecs marshal r; try congruence;
    rewrite Hrb in Hbody; injection Hbody as <-;
    cbn [worldOf trace]; trace_goal; rewrite Hb;
    (split; [tauto | intros Hin; in_trace Hin; intuition discriminate]).
Qed.

Lemma nil_body_decoded_as_empty_witness :
  let r := http.mkRequest (<["Content-Type" := ["application/json"]]> ∅) None in
  let o := validatePod Sample.deserializer Sample.marshal r initWorld in
  EvDecodeAdmissionReview [] ∈ trace (worldOf o)
  /\ EvReadAll ∉ trace (worldOf o).
Proof.
  intros r.
  apply (nil_body_decoded_as_empty Sample.deserializer Sample.marshal r);
    vm_compute; reflexivity.
Defined.

(** X3: when the response does not serialize, the answer has status 500,
    its body carries the serializer's error, and no Content-Type header is
    set. *)
Theorem marshal_error_500
    (codecs : Decoder) (marshal : admissionv1.AdmissionReview -> result (list Byte.byte))
    (r : http.Request) (review : admissionv1.AdmissionReview)
    (request : admissionv1.AdmissionRequest) (pod : corev1.Pod) (err : error) :
  evaluated codecs r review request pod ->
  marshal (admissionReviewResponseFor review request pod) = Err err ->
  let o := validatePod codecs marshal r initWorld in
  panicked o = false
  /\ statusOf o = Some 500
  /\ bodyOf o = bytes_of ("error marshalling response json: " +:+ err)
  /\ contentTypeOf o = "".
Proof.
  intros (H & (data & Hb & Hd) & Hr & Heq & Hp) Hm o. subst o.
  rewrite (validatePod_evaluated codecs marshal r data review request pod H Hb Hd Hr Heq Hp).
  cbv zeta. rewrite Hm. repeat split.
Qed.

Lemma marshal_error_500_witness :
  let marshal := fun _ : admissionv1.AdmissionReview =>
                   @Err (list Byte.byte) "json: unsupported value" in
  let o := validatePod Sample.deserializer marshal
             (Sample.post "application/json" "review:world") initWorld in
  statusOf o = Some 500
  /\ bodyOf o = bytes_of "error marshalling response json: json: unsupported value"
  /\ contentTypeOf o = "".
Proof.
  intros marshal.
  destruct (marshal_error_500 Sample.deserializer marshal
              (Sample.post "application/json" "review:world")
              (Sample.reviewOf "uid-2" "pods" "" "pod:world")
              (admissionv1.mkAdmissionRequest "uid-2" podResource
                 (runtime.mkRawExtension (bytes_of "pod:world")))
              (corev1.mkPod (<["hello" := "world"]> ∅))
              "json: unsupported value")
    as (_ & Hs & Hbody & Hct).
  - repeat split; try (vm_compute; reflexivity).
    exists (bytes_of "review:world"). split; vm_compute; reflexivity.
  - reflexivity.
  - auto.
Defined.

(** X4: the handler either panics, having written neither status nor body,
    or returns having answered with status 200, 400 or 500. *)
Theorem status_is_200_400_500
    (codecs : Decoder) (marshal : admissionv1.AdmissionReview -> result (list Byte.byte))
    (r : http.Request) :
  let o := validatePod codecs marshal r initWorld in
  (panicked o = true /\ statusOf o = None /\ bodyOf o = [])
  \/ (panicked o = false
      /\ (statusOf o = Some 200 \/ statusOf o = Some 400 \/ statusOf o = Some 500)).
Proof.
  by_path codecs marshal r; first [left; repeat split; reflexivity | right; split; [reflexivity|]];
    cbv; auto.
Qed.

(** X5: the handler panics exactly when the body decodes to an
    AdmissionReview without a request. *)
Theorem panics_iff_nil_request
    (codecs : Decoder) (marshal : admissionv1.AdmissionReview -> result (list Byte.byte))
    (r : http.Request) :
  panicked (validatePod codecs marshal r initWorld) = true
  <-> (http.Header_Get (http.Header_of r) "Content-Type" = "application/json"
       /\ exists data review,
            requestBody r = Ok data
            /\ decodeAdmissionReview codecs data = Ok review
            /\ admissionv1.Request review = None).
Proof.
  split.
  - by_path codecs marshal r; simpl; try discriminate.
    intros _. split; [assumption|]. exists data, review. auto.
  - intros (H & data & review & Hb & Hd & Hn).
    now rewrite (validatePod_nil_request codecs marshal r data review H Hb Hd Hn).
Qed.

(** X6: the answer has status 200 exactly when the request is evaluated and
    the response serializes. *)
Theorem status_200_iff_evaluated
    (codecs : Decoder) (marshal : admissionv1.AdmissionReview -> result (list Byte.byte))
    (r : http.Request) :
  statusOf (validatePod codecs marshal r initWorld) = Some 200
  <-> exists review request pod resp,
        evaluated codecs r review request pod
        /\ marshal (admissionReviewResponseFor review request pod) = Ok resp.
Proof.
  split.
  - by_path codecs marshal r; try (cbv; discriminate).
    intros _. exists review, request, pod, resp. unfold evaluated. eauto 10.
  - intros (review & request & pod & resp & (H & (data & Hb & Hd) & Hr & Heq & Hp) & Hm).
    rewrite (validatePod_evaluated codecs marshal r data review request pod H Hb Hd Hr Heq Hp).
    cbv zeta. now rewrite Hm.
Qed.

(** X7: the answer has status 400 exactly for a wrong Content-Type, a body
    that cannot be read, an envelope that does not decode, or an envelope
    about another resource than Pods. *)
Theorem status_400_iff
    (codecs : Decoder) (marshal : admissionv1.AdmissionReview -> result (list Byte.byte))
    (r : http.Request) :
  statusOf (validatePod codecs marshal r initWorld) = Some 400
  <-> (http.Header_Get (http.Header_of r) "Content-Type" <> "application/json"
       \/ (exists err, http.Body r = Some (Err err))
       \/ (exists data err,
             requestBody r = Ok data /\ decodeAdmissionReview codecs data = Err err)
       \/ (exists data review request,
             requestBody r = Ok data
             /\ decodeAdmissionReview codecs data = Ok review
             /\ admissionv1.Request review = Some request
             /\ admissionv1.Resource request <> podResource)).
Proof.
  split.
  - by_path codecs marshal r; try (cbv; discriminate); intros _.
    + now left.
    + right; left. eauto.
    + right; right; left. eauto.
    + right; right; right. exists data, review, request. auto.
  - intros Hc.
    destruct (decide (http.Header_Get (http.Header_of r) "Content-Type" = "application/json"))
      as [H|H].
    2: { now rewrite (validatePod_content_type codecs marshal r H). }
    destruct Hc as [Hc | [(err & Hb) | [(data & err & Hb & Hd)
                                      | (data & review & request & Hb & Hd & Hr & Hne)]]].
    + contradiction.
    + now rewrite (validatePod_read_error codecs marshal r err H Hb).
    + now rewrite (validatePod_envelope_error codecs marshal r data err H Hb Hd).
    + now rewrite (validatePod_not_pod codecs marshal r data review request H Hb Hd Hr Hne).
Qed.

(** X8: the answer has status 500 exactly when the envelope is about a Pod
    and either the Pod does not decode or the response does not
    serialize. *)
Theorem status_500_iff
    (codecs : Decoder) (marshal : admissionv1.AdmissionReview -> result (list Byte.byte))
    (r : http.Request) :
  statusOf (validatePod codecs marshal r initWorld) = Some 500
  <-> (http.Header_Get (http.Header_of r) "Content-Type" = "application/json"
       /\ exists data review request,
            requestBody r = Ok data
            /\ decodeAdmissionReview codecs data = Ok review
            /\ admissionv1.Request review = Some request
            /\ admissionv1.Resource request = podResource
            /\ match decodePod codecs (runtime.Raw (admissionv1.Object request)) with
               | Err _ => True
               | Ok pod =>
                   exists err,
                     marshal (admissionReviewResponseFor review request pod) = Err err
               end).
Proof.
  split.
  - by_path codecs marshal r; try (cbv; discriminate); intros _;
      (split; [assumption|]); exists data, review, request; rewrite Hpod; eauto 8.
  - intros (H & data & review & request & Hb & Hd & Hr & Heq & Hcase).
    destruct (decodePod codecs (runtime.Raw (admissionv1.Object request)))
      as [pod|err] eqn:Hp.
    + destruct Hcase as [err Hm].
      rewrite (validatePod_evaluated codecs marshal r data review request pod
                 H Hb Hd Hr Heq Hp).
      cbv zeta. now rewrite Hm.
    + now rewrite (validatePod_pod_error codecs marshal r data review request err
                     H Hb Hd Hr Heq Hp).
Qed.

(** X9: the response header has Content-Type [application/json] on a 200
    answer, and no header at all is set on any other outcome. *)
Theorem content_type_header_only_on_200
    (codecs : Decoder) (marshal : admissionv1.AdmissionReview -> result (list Byte.byte))
    (r : http.Request) :
  let o := validatePod codecs marshal r initWorld in
  (statusOf o = Some 200
   /\ http.rw_Header (writer (worldOf o)) = {["Content-Type" := ["application/json"]]})
  \/ (statusOf o <> Some 200 /\ http.rw_Header (writer (worldOf o)) = ∅).
Proof.
  by_path codecs marshal r;
    first [ left; split; reflexivity
          | right; split; [cbv; discriminate | reflexivity] ].
Qed.

(** X10: on a 400 or 500 answer, the body is the message that the handler
    logged last. *)
Theorem error_body_is_logged
    (codecs : Decoder) (marshal : admissionv1.AdmissionReview -> result (list Byte.byte))
    (r : http.Request) :
  let o := validatePod codecs marshal r initWorld in
  statusOf o = Some 400 \/ statusOf o = Some 500 ->
  exists msg,
    last (trace (worldOf o)) = Some (EvLogPrintf msg)
    /\ bodyOf o = bytes_of msg.
Proof.
  by_path codecs marshal r; intros Hs;
    try (destruct Hs as [Hs|Hs]; cbv in Hs; discriminate);
    eexists; (split; [cbn [worldOf trace]; rewrite ?app_assoc; apply last_snoc | reflexivity]).
Qed.

Lemma error_body_is_logged_witness :
  let o := validatePod Sample.deserializer Sample.marshal
             (Sample.post "application/json" "review:configmap") initWorld in
  exists msg,
    last (trace (worldOf o)) = Some (EvLogPrintf msg)
    /\ bodyOf o = bytes_of msg.
Proof.
  apply (error_body_is_logged Sample.deserializer Sample.marshal
           (Sample.post "application/json" "review:configmap")).
  left. vm_compute. reflexivity.
Defined.

(** X11: a Pod is decoded only from the raw object of a decoded envelope
    whose resource is [{"", "v1", "pods"}]. *)
Theorem pod_decoded_only_for_pods
    (codecs : Decoder) (marshal : admissionv1.AdmissionReview -> result (list Byte.byte))
    (r : http.Request) (raw : list Byte.byte) :
  EvDecodePod raw ∈ trace (worldOf (validatePod codecs marshal r initWorld)) ->
  exists data review request,
    EvDecodeAdmissionReview data ∈ trace (worldOf (validatePod codecs marshal r initWorld))
    /\ decodeAdmissionReview codecs data = Ok review
    /\ admissionv1.Request review = Some request
    /\ admissionv1.Resource request = podResource
    /\ raw = runtime.Raw (admissionv1.Object request).
Proof.
  by_path codecs marshal r; cbn [worldOf trace]; intros Hin; in_trace Hin;
    try (destruct (http.Body r); in_trace Hin; intuition discriminate);
    exists data, review, request;
    (split; [trace_goal; tauto|]);
    repeat split; try assumption;
    destruct (http.Body r); in_trace Hin; intuition congruence.
Qed.

Lemma pod_decoded_only_for_pods_witness :
  let o := validatePod Sample.deserializer Sample.marshal
             (Sample.post "application/json" "review:there") initWorld in
  exists data review request,
    EvDecodeAdmissionReview data ∈ trace (worldOf o)
    /\ decodeAdmissionReview Sample.deserializer data = Ok review
    /\ admissionv1.Request review = Some request
    /\ admissionv1.Resource request = podResource
    /\ bytes_of "pod:there" = runtime.Raw (admissionv1.Object request).
Proof.
  apply (pod_decoded_only_for_pods Sample.deserializer Sample.marshal
           (Sample.post "application/json" "review:there") (bytes_of "pod:there")).
  vm_compute. repeat first [apply list_elem_of_here | apply list_elem_of_further].
Defined.

(** X12: whatever the handler serializes is a review without a request whose
    response is the policy's verdict on the decoded Pod, with the UID of
    the request. *)
Theorem marshalled_is_policy_verdict
    (codecs : Decoder) (marshal : admissionv1.AdmissionReview -> result (list Byte.byte))
    (r : http.Request) (v : admissionv1.AdmissionReview) :
  EvJsonMarshal v ∈ trace (worldOf (validatePod codecs marshal r initWorld)) ->
  exists review request pod,
    evaluated codecs r review request pod
    /\ admissionv1.Request v = None
    /\ admissionv1.Response v
       = Some (admissionv1.mkAdmissionResponse
                 (admissionv1.UID request)
                 (admissionv1.Allowed (podAdmissionResponse pod))
                 (admissionv1.Result (podAdmissionResponse pod))
                 (admissionv1.Warnings (podAdmissionResponse pod))).
Proof.
  by_path codecs marshal r; cbn [worldOf trace]; intros Hin; in_trace Hin;
    try (destruct (http.Body r); in_trace Hin; intuition discriminate);
    exists review, request, pod;
    (assert (v = admissionReviewResponseFor review request pod) as ->
       by (destruct (http.Body r); in_trace Hin; intuition congruence));
    (split; [|split; reflexivity]);
    unfold evaluated; eauto 10.
Qed.

Lemma marshalled_is_policy_verdict_witness :
  let o := validatePod Sample.deserializer Sample.marshal
             (Sample.post "application/json" "review:no-labels") initWorld in
  let v := admissionv1.mkAdmissionReview Sample.reviewMeta None
             (Some (admissionv1.mkAdmissionResponse "uid-1" false
                      (Some (metav1.mkStatus "missing required hello label")) [])) in
  exists review request pod,
    evaluated Sample.deserializer (Sample.post "application/json" "review:no-labels")
      review request pod
    /\ admissionv1.Request v = None
    /\ admissionv1.Response v
       = Some (admissionv1.mkAdmissionResponse
                 (admissionv1.UID request)
                 (admissionv1.Allowed (podAdmissionResponse pod))
                 (admissionv1.Result (podAdmissionResponse pod))
                 (admissionv1.Warnings (podAdmissionResponse pod))).
Proof.
  intros o v.
  apply (marshalled_is_policy_verdict Sample.deserializer Sample.marshal
           (Sample.post "application/json" "review:no-labels") v).
  vm_compute. repeat first [apply list_elem_of_here | apply list_elem_of_further].
Defined.

(** X13: a Pod without the [hello] label, sent in a valid request, gets a
    200 answer whose body is the serialized denial with the message
    [missing required hello label] and the UID of the request. *)
Theorem unlabelled_pod_denied_with_200
    (codecs : Decoder) (marshal : admissionv1.AdmissionReview -> result (list Byte.byte))
    (r : http.Request) (review : admissionv1.AdmissionReview)
    (request : admissionv1.AdmissionRequest) (pod : corev1.Pod) (resp : list Byte.byte) :
  evaluated codecs r review request pod ->
  corev1.Labels pod !! "hello" = None ->
  marshal (admissionv1.mkAdmissionReview
             (admissionv1.TypeMeta (admissionReviewResponseFor review request pod))
             None
             (Some (admissionv1.mkAdmissionResponse (admissionv1.UID request) false
                      (Some (metav1.mkStatus "missing required hello label")) [])))
    = Ok resp ->
  let o := validatePod codecs marshal r initWorld in
  statusOf o = Some 200 /\ bodyOf o = resp /\ contentTypeOf o = "application/json".
Proof.
  intros (H & (data & Hb & Hd) & Hr & Heq & Hp) Hl Hm o. subst o.
  rewrite (validatePod_evaluated codecs marshal r data review request pod H Hb Hd Hr Heq Hp).
  cbv zeta.
  replace (marshal (admissionReviewResponseFor review request pod)) with (Ok resp).
  - repeat split.
  - rewrite <- Hm. unfold admissionReviewResponseFor, podAdmissionResponse.
    now rewrite Hl.
Qed.

Lemma unlabelled_pod_denied_with_200_witness :
  let o := validatePod Sample.deserializer Sample.marshal
             (Sample.post "application/json" "review:no-labels") initWorld in
  statusOf o = Some 200
  /\ bodyOf o = bytes_of "uid=uid-1"
  /\ contentTypeOf o = "application/json".
Proof.
  apply (unlabelled_pod_denied_with_200 Sample.deserializer Sample.marshal
           (Sample.post "application/json" "review:no-labels")
           (Sample.reviewOf "uid-1" "pods" "" "pod:no-labels")
           (admissionv1.mkAdmissionRequest "uid-1" podResource
              (runtime.mkRawExtension (bytes_of "pod:no-labels")))
           (corev1.mkPod (<["app" := "web"]> ∅))
           (bytes_of "uid=uid-1")).
  - repeat split; try (vm_compute; reflexivity).
    exists (bytes_of "review:no-labels"). split; vm_compute; reflexivity.
  - vm_compute. reflexivity.
  - vm_compute. reflexivity.
Defined.

(** X14: when the request's [apiVersion] has at most one slash, and not a
    leading one, the serialized review has the request's [apiVersion] and
    [kind] strings unchanged. *)
Theorem type_meta_copied_unchanged
    (codecs : Decoder) (marshal : admissionv1.AdmissionReview -> result (list Byte.byte))
    (r : http.Request) (review : admissionv1.AdmissionReview)
    (request : admissionv1.AdmissionRequest) (pod : corev1.Pod) :
  evaluated codecs r review request pod ->
  (strings.Count (metav1.APIVersion (admissionv1.TypeMeta review)) schema.slash <= 1)%nat ->
  strings.Index (metav1.APIVersion (admissionv1.TypeMeta review)) schema.slash
    <> Some 0%nat ->
  exists v,
    EvJsonMarshal v ∈ trace (worldOf (validatePod codecs marshal r initWorld))
    /\ admissionv1.TypeMeta v = admissionv1.TypeMeta review.
Proof.
  intros (H & (data & Hb & Hd) & Hr & Heq & Hp) Hc Hi.
  rewrite (validatePod_evaluated codecs marshal r data review request pod H Hb Hd Hr Heq Hp).
  cbv zeta.
  exists (admissionReviewResponseFor review request pod). split.
  - destruct (marshal _); cbn [worldOf trace]; set_solver.
  - now apply APIVersion_SetGroupVersionKind.
Qed.

Lemma type_meta_copied_unchanged_witness :
  let o := validatePod Sample.deserializer Sample.marshal
             (Sample.post "application/json" "review:there") initWorld in
  exists v,
    EvJsonMarshal v ∈ trace (worldOf o)
    /\ admissionv1.TypeMeta v = metav1.mkTypeMeta "AdmissionReview" "admission.k8s.io/v1".
Proof.
  apply (type_meta_copied_unchanged Sample.deserializer Sample.marshal
           (Sample.post "application/json" "review:there")
           (Sample.reviewOf "uid-3" "pods" "" "pod:there")
           (admissionv1.mkAdmissionRequest "uid-3" podResource
              (runtime.mkRawExtension (bytes_of "pod:there")))
           (corev1.mkPod (<["hello" := "there"]> ∅))).
  - repeat split; try (vm_compute; reflexivity).
    exists (bytes_of "review:there"). split; vm_compute; reflexivity.
  - vm_compute. lia.
  - vm_compute. discriminate.
Defined.

(** * Further properties of the policy *)

(** X15: a Pod is allowed exactly when its labels contain the key
    [hello]. *)
Theorem allowed_iff_hello_present (pod : corev1.Pod) :
  admissionv1.Allowed (podAdmissionResponse pod) = true
  <-> is_Some (corev1.Labels pod !! "hello").
Proof.
  unfold podAdmissionResponse.
  destruct (corev1.Labels pod !! "hello") as [value|]; simpl.
  - destruct (bool_decide (value = "world")); simpl; split; eauto.
  - split; [discriminate | intros [x Hx]; discriminate].
Qed.

(** X16: the response carries the deprecation warning, and only that one,
    exactly when the label [hello] is [world]. *)
Theorem warning_iff_hello_world (pod : corev1.Pod) :
  (corev1.Labels pod !! "hello" = Some "world"
   /\ admissionv1.Warnings (podAdmissionResponse pod)
      = ["world will be deprecated for hello in the future"])
  \/ (corev1.Labels pod !! "hello" <> Some "world"
      /\ admissionv1.Warnings (podAdmissionResponse pod) = []).
Proof.
  unfold podAdmissionResponse.
  destruct (corev1.Labels pod !! "hello") as [value|]; simpl.
  - destruct (decide (value = "world")) as [->|Hne].
    + left. split; reflexivity.
    + right. rewrite bool_decide_false by assumption. split; [congruence | reflexivity].
  - right. split; [discriminate | reflexivity].
Qed.

(** X17: labels other than [hello] do not matter: adding, changing or
    removing one leaves the response as it is. *)
Theorem other_labels_ignored (labels : gmap string string) (key value : string) :
  key <> "hello" ->
  podAdmissionResponse (corev1.mkPod (<[key := value]> labels))
  = podAdmissionResponse (corev1.mkPod labels)
  /\ podAdmissionResponse (corev1.mkPod (delete key labels))
     = podAdmissionResponse (corev1.mkPod labels).
Proof.
  intros Hne. unfold podAdmissionResponse. simpl.
  rewrite lookup_insert_ne by assumption.
  rewrite lookup_delete_ne by assumption.
  split; reflexivity.
Qed.

Lemma other_labels_ignored_witness :
  let labels : gmap string string := <["hello" := "world"]> ∅ in
  podAdmissionResponse (corev1.mkPod (<["app" := "web"]> labels))
  = podAdmissionResponse (corev1.mkPod labels)
  /\ podAdmissionResponse (corev1.mkPod (delete "app" labels))
     = podAdmissionResponse (corev1.mkPod labels).
Proof.
  intros labels. apply (other_labels_ignored labels "app" "web"). discriminate.
Defined.

(** * Properties of the startup *)

Section StartupProperties.

Variable Certificate : Type.
Variable load : string -> string -> result Certificate.
Variable listen : Server Certificate -> option error.

(** X18: the server starts listening exactly when both flags are given and
    the key pair loads. *)
Theorem listens_iff_configured (tlsCert tlsKey : string) (port : Z) :
  (exists server,
     StListenAndServeTLS server ∈ (rootCmd_Run Certificate load listen tlsCert tlsKey port).1)
  <-> (tlsCert <> "" /\ tlsKey <> "" /\ exists cert, load tlsCert tlsKey = Ok cert).
Proof.
  unfold rootCmd_Run, runWebhookServer.
  destruct (decide (tlsCert = "")) as [Hc|Hc];
    [rewrite (bool_decide_true _ Hc) | rewrite (bool_decide_false _ Hc)];
    (destruct (decide (tlsKey = "")) as [Hk|Hk];
       [rewrite (bool_decide_true _ Hk) | rewrite (bool_decide_false _ Hk)]);
    cbn [orb fst];
    try (split;
           [ intros [server Hin]; rewrite elem_of_cons, elem_of_nil in Hin;
             intuition discriminate
           | intros (? & ? & _); contradiction ]).
  destruct (load tlsCert tlsKey) as [cert|err]; cbn [fst]; split.
  - eauto.
  - intros _. eexists. repeat first [apply list_elem_of_here | apply list_elem_of_further].
  - intros [server Hin]. rewrite elem_of_cons, elem_of_nil in Hin. intuition discriminate.
  - intros (_ & _ & cert & Hcert). discriminate.
Qed.

(** X19: when a flag is missing the process prints the usage line and exits
    with code 1; it does nothing else. *)
Theorem missing_flag_exits (tlsCert tlsKey : string) (port : Z) :
  tlsCert = "" \/ tlsKey = "" ->
  rootCmd_Run Certificate load listen tlsCert tlsKey port
  = ([StPrintln "--tls-cert and --tls-key required"], Exits 1).
Proof.
  intros Hm. unfold rootCmd_Run.
  replace (bool_decide (tlsCert = "") || bool_decide (tlsKey = "")) with true.
  - reflexivity.
  - symmetry. apply orb_true_iff.
    destruct Hm as [Hm|Hm]; [left | right]; now apply bool_decide_eq_true.
Qed.

(** X20: the server that listens has the address [:port], in decimal, and
    exactly the loaded certificate; the handler was registered under
    [/validate] before. *)
Theorem listening_server (tlsCert tlsKey : string) (port : Z) (server : Server Certificate) :
  StListenAndServeTLS server ∈ (rootCmd_Run Certificate load listen tlsCert tlsKey port).1 ->
  Addr server = ":" +:+ Sprintf_d port
  /\ (exists cert, load tlsCert tlsKey = Ok cert /\ Certificates server = [cert])
  /\ exists before : list (StartEvent Certificate),
       (rootCmd_Run Certificate load listen tlsCert tlsKey port).1
       = (before ++ [StListenAndServeTLS server])%list
       /\ StHandleFunc "/validate" ∈ before.
Proof.
  unfold rootCmd_Run, runWebhookServer.
  destruct (bool_decide (tlsCert = "") || bool_decide (tlsKey = "")); cbn [fst].
  { intros Hin. rewrite elem_of_cons, elem_of_nil in Hin. intuition discriminate. }
  destruct (load tlsCert tlsKey) as [cert|err]; cbn [fst]; intros Hin;
    repeat rewrite ?elem_of_cons, ?elem_of_nil in Hin.
  - destruct Hin as [Hin|[Hin|[Hin|[Hin|[]]]]]; try discriminate.
    injection Hin as ->. split; [reflexivity|]. split; [eauto|].
    exists [StLoadX509KeyPair tlsCert tlsKey;
            StPrintln "Starting webhook server";
            StHandleFunc "/validate"].
    split; [reflexivity|].
    repeat first [apply list_elem_of_here | apply list_elem_of_further].
  - intuition discriminate.
Qed.

(** X21: when [ListenAndServeTLS] returns an error, as it does whenever it
    returns, the process never returns normally: it exits with code 1 or
    panics, with the error of the loader or of the listener. *)
Theorem startup_never_returns (tlsCert tlsKey : string) (port : Z) :
  (forall server, listen server <> None) ->
  let ending := (rootCmd_Run Certificate load listen tlsCert tlsKey port).2 in
  ending = Exits 1
  \/ (exists err, load tlsCert tlsKey = Err err /\ ending = Panics err)
  \/ (exists server err, listen server = Some err /\ ending = Panics err).
Proof.
  intros Hl ending. subst ending. unfold rootCmd_Run, runWebhookServer.
  destruct (bool_decide (tlsCert = "") || bool_decide (tlsKey = "")); [now left|].
  right. destruct (load tlsCert tlsKey) as [cert|err]; cbn [snd].
  - right.
    destruct (listen (mkServer (":" +:+ Sprintf_d port) [cert])) as [err|] eqn:E.
    + eauto.
    + exfalso. eapply Hl, E.
  - left. eauto.
Qed.

End StartupProperties.

Lemma missing_flag_exits_witness :
  rootCmd_Run string SampleStartup.load SampleStartup.listen
    "/etc/opt/tls.crt" default_tlsKey default_port
  = ([StPrintln "--tls-cert and --tls-key required"], Exits 1).
Proof.
  apply (missing_flag_exits string SampleStartup.load SampleStartup.listen
           "/etc/opt/tls.crt" default_tlsKey default_port).
  right. reflexivity.
Defined.

Lemma listening_server_witness :
  let server := mkServer ":443" ["webhook-certificate"] in
  Addr server = ":" +:+ Sprintf_d default_port
  /\ (exists cert, SampleStartup.load "/etc/opt/tls.crt" "/etc/opt/tls.key" = Ok cert
                   /\ Certificates server = [cert])
  /\ exists before : list (StartEvent string),
       (rootCmd_Run string SampleStartup.load SampleStartup.listen
          "/etc/opt/tls.crt" "/etc/opt/tls.key" default_port).1
       = (before ++ [StListenAndServeTLS server])%list
       /\ StHandleFunc "/validate" ∈ before.
Proof.
  intros server.
  apply (listening_server string SampleStartup.load SampleStartup.listen
           "/etc/opt/tls.crt" "/etc/opt/tls.key" default_port server).
  vm_compute. repeat first [apply list_elem_of_here | apply list_elem_of_further].
Defined.

Lemma startup_never_returns_witness :
  let ending := (rootCmd_Run string SampleStartup.load SampleStartup.listen
                   "/etc/opt/tls.crt" "/etc/opt/tls.key" default_port).2 in
  ending = Exits 1
  \/ (exists err, SampleStartup.load "/etc/opt/tls.crt" "/etc/opt/tls.key" = Err err
                  /\ ending = Panics err)
  \/ (exists server err, SampleStartup.listen server = Some err /\ ending = Panics err).
Proof.
  apply (startup_never_returns string SampleStartup.load SampleStartup.listen
           "/etc/opt/tls.crt" "/etc/opt/tls.key" default_port).
  intros server. unfold SampleStartup.listen. discriminate.
Defined.

Example startup_port_in_use :
  rootCmd_Run string SampleStartup.load SampleStartup.listen
    "/etc/opt/tls.crt" "/etc/opt/tls.key" default_port
  = ([StLoadX509KeyPair "/etc/opt/tls.crt" "/etc/opt/tls.key";
      StPrintln "Starting webhook server";
      StHandleFunc "/validate";
      StListenAndServeTLS (mkServer ":443" ["webhook-certificate"])],
     Panics "listen tcp :443: bind: address already in use").
Proof. vm_compute. reflexivity. Qed.
